(** * hazelcast-nodejs-client: serialization service and MultiMapIsLocked codec

    A shallow embedding of [SerializationServiceV1] (the serializer
    registry, [toData], [toObject], [writeObject], [readObject]) and of
    [MultiMapIsLockedCodec] ([calculateSize], [encodeRequest],
    [decodeResponse]), with the properties of the specification stated
    and settled over it.

    Layout: JavaScript values and exceptions, the byte-stream classes the
    service calls, the service, the codec, sample serializers, and then
    the theorems. *)

From Stdlib Require Import ZArith List Bool Ascii String Lia.
From stdpp Require Import gmap strings.
Import ListNotations.

Set Warnings "-register-all".

Local Open Scope string_scope.
Local Open Scope list_scope.
Local Open Scope Z_scope.

(* ===================================================================== *)
(** ** JavaScript values *)
(* ===================================================================== *)

(** The values the service receives as [obj: any].

    - Numbers are the integral ones; the engine never inspects a number
      beyond its type and its truthiness.
    - A function value records the number its call without arguments
      returns: [getPartitionHash], [getClassId] and [getFactoryId] are the
      only methods called that way.
    - [props] is the property view of an object (own and inherited
      members), first binding wins.  Arrays are objects too and may carry
      members next to their elements. *)
Inductive JSValue : Type :=
| JUndefined
| JNull
| JBool (b : bool)
| JNumber (n : Z)
| JString (s : string)
| JFunction (ret : Z)
| JArray (elems : list JSValue) (props : list (string * JSValue))
| JObject (props : list (string * JSValue)).

(** Which of the two empty values a failed member access was made on. *)
Inductive Nullish : Type := OfNull | OfUndefined.

(** Exceptions.  [RangeError] is what the source throws itself
    ([throw new RangeError(msg)]); the two [TypeError]s are raised by the
    JavaScript engine on a member access on null/undefined and on a call
    of a non-function; [OutOfRange] is the stream primitives' error. *)
Inductive Error : Type :=
| RangeError (msg : string)
| TypeErrorRead (prop : string) (base : Nullish)
| TypeErrorNotAFunction (prop : string)
| OutOfRange.

Inductive Result (A : Type) : Type :=
| Ok (a : A)
| Throw (e : Error).
Arguments Ok {A} a.
Arguments Throw {A} e.

Definition bind {A B : Type} (r : Result A) (k : A -> Result B) : Result B :=
  match r with
  | Ok a => k a
  | Throw e => Throw e
  end.

Notation "'let*' x ':=' r 'in' k" := (bind r (fun x => k))
  (at level 10, x pattern, r at level 100, k at level 200).

(** A reference that may be [null] or [undefined], as the lookups of the
    registry return it. *)
Inductive Ref (A : Type) : Type :=
| RNull
| RUndefined
| RObj (a : A).
Arguments RNull {A}.
Arguments RUndefined {A}.
Arguments RObj {A} a.

(** [r.prop] on a reference: the member of the object, or the engine's
    [TypeError] when [r] is null or undefined. *)
Definition deref {A : Type} (prop : string) (r : Ref A) : Result A :=
  match r with
  | RNull => Throw (TypeErrorRead prop OfNull)
  | RUndefined => Throw (TypeErrorRead prop OfUndefined)
  | RObj a => Ok a
  end.

Fixpoint lookupProp (name : string) (props : list (string * JSValue)) : JSValue :=
  match props with
  | [] => JUndefined
  | (k, v) :: rest => if String.eqb k name then v else lookupProp name rest
  end.

(** [obj[name]]: throws on null and undefined, is [undefined] on a
    primitive without such a member. *)
Definition getProp (obj : JSValue) (name : string) : Result JSValue :=
  match obj with
  | JUndefined => Throw (TypeErrorRead name OfUndefined)
  | JNull => Throw (TypeErrorRead name OfNull)
  | JObject props => Ok (lookupProp name props)
  | JArray elems props =>
      if String.eqb name "length" then Ok (JNumber (Z.of_nat (List.length elems)))
      else Ok (lookupProp name props)
  | _ => Ok JUndefined
  end.

(** [obj.length] and [obj[0]] of an array; [obj[0]] of an array without
    elements is [undefined]. *)
Definition arrayLength (obj : JSValue) : nat :=
  match obj with
  | JArray elems _ => List.length elems
  | _ => O
  end.

Definition index0 (obj : JSValue) : JSValue :=
  match obj with
  | JArray (first :: _) _ => first
  | _ => JUndefined
  end.

(** ToBoolean. *)
Definition truthy (v : JSValue) : bool :=
  match v with
  | JUndefined | JNull => false
  | JBool b => b
  | JNumber n => negb (n =? 0)
  | JString s => negb (String.eqb s EmptyString)
  | JFunction _ | JArray _ _ | JObject _ => true
  end.

(** [obj.prop()] for a member already read. *)
Definition call0 (prop : string) (f : JSValue) : Result Z :=
  match f with
  | JFunction ret => Ok ret
  | _ => Throw (TypeErrorNotAFunction prop)
  end.

(** Modelled from the spec: [Util.getType] is not under src/.  The shape
    name of a value: ['array'] for a sequence, ['null'] for null, and the
    scalar's shape name (string, number, boolean) otherwise, which is
    what [typeof] answers. *)
Definition getType (obj : JSValue) : string :=
  match obj with
  | JArray _ _ => "array"
  | JNull => "null"
  | JUndefined => "undefined"
  | JBool _ => "boolean"
  | JNumber _ => "number"
  | JString _ => "string"
  | JFunction _ => "function"
  | JObject _ => "object"
  end.

(* ===================================================================== *)
(** ** Binary stream primitives *)
(* ===================================================================== *)

(** A byte is a [Z] in [0, 256). *)
Definition octet : Type := Z.

(** The [w] low bytes of [z], least significant first; two's complement
    for a negative [z]. *)
Fixpoint leBytes (w : nat) (z : Z) : list octet :=
  match w with
  | O => []
  | S w' => Z.land z 255 :: leBytes w' (Z.shiftr z 8)
  end.

Definition encodeInt (w : nat) (bigEndian : bool) (z : Z) : list octet :=
  if bigEndian then rev (leBytes w z) else leBytes w z.

Fixpoint leValue (bs : list octet) : Z :=
  match bs with
  | [] => 0
  | b :: rest => b + 256 * leValue rest
  end.

(** Signed reading of [bs]. *)
Definition decodeInt (bigEndian : bool) (bs : list octet) : Z :=
  let u := leValue (if bigEndian then rev bs else bs) in
  let m := 2 ^ (8 * Z.of_nat (List.length bs)) in
  if u <? m / 2 then u else u - m.

Definition INT_SIZE_IN_BYTES : nat := 4.

Definition slice (pos len : nat) (bs : list octet) : list octet :=
  firstn len (skipn pos bs).

(** Modelled from the spec: [ObjectDataOutput] is not under src/.  A
    growing buffer with a byte-order flag fixed at construction;
    [writeInt] follows the flag, [writeIntBE] is big-endian whatever the
    flag says. *)
Record DataOutput : Type := mkDataOutput {
  out_buffer : list octet;
  out_bigEndian : bool
}.

Definition newObjectDataOutput (isBigEndian : bool) : DataOutput :=
  {| out_buffer := []; out_bigEndian := isBigEndian |}.

Definition writeBytes (out : DataOutput) (bs : list octet) : DataOutput :=
  {| out_buffer := out_buffer out ++ bs; out_bigEndian := out_bigEndian out |}.

Definition writeInt (out : DataOutput) (z : Z) : DataOutput :=
  writeBytes out (encodeInt INT_SIZE_IN_BYTES (out_bigEndian out) z).

Definition writeIntBE (out : DataOutput) (z : Z) : DataOutput :=
  writeBytes out (encodeInt INT_SIZE_IN_BYTES true z).

Definition writeBoolean (out : DataOutput) (b : bool) : DataOutput :=
  writeBytes out [if b then 1 else 0].

Definition toBuffer (out : DataOutput) : list octet := out_buffer out.

(** Modelled from the spec: [ObjectDataInput] is not under src/.  A
    buffer, a cursor and the byte-order flag; a read past the end of the
    buffer fails with [OutOfRange]. *)
Record DataInput : Type := mkDataInput {
  in_buffer : list octet;
  in_pos : nat;
  in_bigEndian : bool
}.

Definition newObjectDataInput (buffer : list octet) (offset : nat)
    (isBigEndian : bool) : DataInput :=
  {| in_buffer := buffer; in_pos := offset; in_bigEndian := isBigEndian |}.

Definition readBytes (inp : DataInput) (len : nat) : Result (list octet * DataInput) :=
  if (in_pos inp + len <=? List.length (in_buffer inp))%nat
  then Ok (slice (in_pos inp) len (in_buffer inp),
           {| in_buffer := in_buffer inp;
              in_pos := (in_pos inp + len)%nat;
              in_bigEndian := in_bigEndian inp |})
  else Throw OutOfRange.

Definition readInt (inp : DataInput) : Result (Z * DataInput) :=
  let* (bs, inp') := readBytes inp INT_SIZE_IN_BYTES in
  Ok (decodeInt (in_bigEndian inp) bs, inp').

Definition readBoolean (inp : DataInput) : Result (bool * DataInput) :=
  let* (bs, inp') := readBytes inp 1 in
  Ok (match bs with b :: _ => b =? 1 | [] => false end, inp').

(** Modelled from the spec: [HeapData] is not under src/.  The envelope
    is a flat buffer, [4 bytes partitionHash][4 bytes typeTag][payload];
    the type tag is read big-endian, as [toData] writes it. *)
Record HeapData : Type := mkHeapData { heap_buffer : list octet }.

Definition PARTITION_HASH_OFFSET : nat := 0.
Definition TYPE_OFFSET : nat := 4.
Definition DATA_OFFSET : nat := 8.

Definition totalSize (d : HeapData) : nat := List.length (heap_buffer d).

Definition data_getType (d : HeapData) : Result Z :=
  if (TYPE_OFFSET + INT_SIZE_IN_BYTES <=? totalSize d)%nat
  then Ok (decodeInt true (slice TYPE_OFFSET INT_SIZE_IN_BYTES (heap_buffer d)))
  else Throw OutOfRange.

Definition data_toBuffer (d : HeapData) : list octet := heap_buffer d.

(* ===================================================================== *)
(** ** SerializationServiceV1 *)
(* ===================================================================== *)

(** [interface Serializer].  [write] returns the stream it has written
    to; both members may throw. *)
Record Serializer : Type := mkSerializer {
  getId : Z;
  read : DataInput -> Result JSValue;
  write : DataOutput -> JSValue -> Result DataOutput
}.

Record SerializationConfig : Type := mkSerializationConfig {
  isBigEndian : bool;
  dataSerializableFactories : list (Z * JSValue)
}.

(** The fields of the service: [registry: {[id: number]: Serializer}] and
    [serializerNameToId: {[name: string]: number}], both JavaScript
    objects used as maps (the members every object inherits from
    [Object.prototype] are left out). *)
Record Service : Type := mkService {
  registry : gmap Z Serializer;
  serializerNameToId : gmap string Z;
  serialiationConfig : SerializationConfig
}.

Definition NAME_IN_REGISTRY : string :=
  "Given serializer name is already in the registry.".
Definition ID_IN_REGISTRY : string :=
  "Given serializer id is already in the registry.".
Definition UNDEFINED_NOT_SERIALIZABLE : string :=
  "undefined cannot be serialized.".

(** [if (this.serializerNameToId[name])]: the member is a number or
    missing, and the test is its truthiness. *)
Definition nameGuard (svc : Service) (name : string) : bool :=
  match serializerNameToId svc !! name with
  | Some id => truthy (JNumber id)
  | None => truthy JUndefined
  end.

(** [if (this.registry[serializer.getId()])]: the member is a Serializer
    object or missing. *)
Definition idGuard (svc : Service) (id : Z) : bool :=
  match registry svc !! id with
  | Some _ => true
  | None => truthy JUndefined
  end.

(** [registerSerializer(name, serializer)]: the service after the call
    and whether the call returned or threw. *)
Definition registerSerializer (name : string) (serializer : Serializer)
    (svc : Service) : Service * Result unit :=
  if nameGuard svc name then (svc, Throw (RangeError NAME_IN_REGISTRY))
  else if idGuard svc (getId serializer) then (svc, Throw (RangeError ID_IN_REGISTRY))
  else
    ({| registry := <[getId serializer := serializer]> (registry svc);
        serializerNameToId := <[name := getId serializer]> (serializerNameToId svc);
        serialiationConfig := serialiationConfig svc |},
     Ok tt).

(** The service after a registration that went through. *)
Definition registered (name : string) (serializer : Serializer) (svc : Service) : Service :=
  {| registry := <[getId serializer := serializer]> (registry svc);
     serializerNameToId := <[name := getId serializer]> (serializerNameToId svc);
     serialiationConfig := serialiationConfig svc |}.

Definition findSerializerById (svc : Service) (id : Z) : Ref Serializer :=
  match registry svc !! id with
  | Some s => RObj s
  | None => RUndefined
  end.

Definition findSerializerByName (svc : Service) (name : string) (isArray : bool)
    : Ref Serializer :=
  let serializerName := String.append name (if isArray then "Array" else "") in
  match serializerNameToId svc !! serializerName with
  | None => RNull
  | Some serializerId => findSerializerById svc serializerId
  end.

(** [&&] evaluates its right operand only when the left one is truthy. *)
Definition isIdentifiedDataSerializable (obj : JSValue) : Result bool :=
  let* r := getProp obj "readData" in
  if negb (truthy r) then Ok false else
  let* w := getProp obj "writeData" in
  if negb (truthy w) then Ok false else
  let* c := getProp obj "getClassId" in
  if negb (truthy c) then Ok false else
  let* f := getProp obj "getFactoryId" in
  Ok (truthy f).

Definition findSerializerFor (svc : Service) (obj : JSValue) : Result (Ref Serializer) :=
  match obj with
  | JUndefined => Throw (RangeError UNDEFINED_NOT_SERIALIZABLE)
  | _ =>
    let* identified := isIdentifiedDataSerializable obj in
    if identified then Ok (findSerializerByName svc "identified" false)
    else
      let objectType := getType obj in
      if String.eqb objectType "array" then
        if (arrayLength obj =? 0)%nat
        then Ok (findSerializerByName svc "number" true)
        else Ok (findSerializerByName svc (getType (index0 obj)) true)
      else Ok (findSerializerByName svc objectType false)
  end.

(** A partitioning strategy is a function of the value. *)
Definition Strategy : Type := JSValue -> Result Z.

Definition defaultPartitionStrategy (obj : JSValue) : Result Z :=
  match obj with
  | JUndefined | JNull => Ok 0
  | _ =>
    let* m := getProp obj "getPartitionHash" in
    if negb (truthy m) then Ok 0 else call0 "getPartitionHash" m
  end.

Definition calculatePartitionHash (object : JSValue) (strategy : Strategy) : Result Z :=
  strategy object.

(** The default value of the parameter [partitioningStrategy]. *)
Definition strategyOr (partitioningStrategy : option Strategy) : Strategy :=
  match partitioningStrategy with
  | Some s => s
  | None => defaultPartitionStrategy
  end.

(** The body of [toData] once the serializer is resolved. *)
Definition toDataWith (svc : Service) (serializer : Ref Serializer)
    (object : JSValue) (strategy : Strategy) : Result HeapData :=
  let dataOutput := newObjectDataOutput (isBigEndian (serialiationConfig svc)) in
  let* hash := calculatePartitionHash object strategy in
  let dataOutput := writeIntBE dataOutput hash in
  let* s := deref "getId" serializer in
  let dataOutput := writeIntBE dataOutput (getId s) in
  let* dataOutput := write s dataOutput object in
  Ok (mkHeapData (toBuffer dataOutput)).

Definition toData (svc : Service) (object : JSValue)
    (partitioningStrategy : option Strategy) : Result HeapData :=
  let* serializer := findSerializerFor svc object in
  toDataWith svc serializer object (strategyOr partitioningStrategy).

Definition toObject (svc : Service) (data : HeapData) : Result JSValue :=
  let* tag := data_getType data in
  let serializer := findSerializerById svc tag in
  let dataInput :=
    newObjectDataInput (data_toBuffer data) DATA_OFFSET
      (isBigEndian (serialiationConfig svc)) in
  let* s := deref "read" serializer in
  read s dataInput.

Definition writeObject (svc : Service) (out : DataOutput) (object : JSValue)
    : Result DataOutput :=
  let* serializer := findSerializerFor svc object in
  let* s := deref "getId" serializer in
  let out := writeInt out (getId s) in
  write s out object.

Definition readObject (svc : Service) (inp : DataInput) : Result JSValue :=
  let* (serializerId, inp) := readInt inp in
  let serializer := findSerializerById svc serializerId in
  let* s := deref "read" serializer in
  read s inp.

(** The serializer classes imported from [DefaultSerializer], which is
    not under src/: the constructor takes them as they are. *)
Record DefaultSerializers : Type := mkDefaultSerializers {
  StringSerializer : Serializer;
  DoubleSerializer : Serializer;
  BooleanSerializer : Serializer;
  NullSerializer : Serializer;
  ShortSerializer : Serializer;
  IntegerSerializer : Serializer;
  LongSerializer : Serializer;
  FloatSerializer : Serializer;
  BooleanArraySerializer : Serializer;
  ShortArraySerializer : Serializer;
  IntegerArraySerializer : Serializer;
  LongArraySerializer : Serializer;
  DoubleArraySerializer : Serializer;
  StringArraySerializer : Serializer;
  IdentifiedDataSerializableSerializer : list (Z * JSValue) -> Serializer
}.

(** A sequence of registrations stops at the first one that throws. *)
Fixpoint registerAll (entries : list (string * Serializer)) (svc : Service)
    : Service * Result unit :=
  match entries with
  | [] => (svc, Ok tt)
  | (name, s) :: rest =>
      match registerSerializer name s svc with
      | (svc', Ok _) => registerAll rest svc'
      | (svc', Throw e) => (svc', Throw e)
      end
  end.

Definition defaultEntries (ds : DefaultSerializers) (cfg : SerializationConfig)
    : list (string * Serializer) :=
  [ ("string", StringSerializer ds);
    ("number", DoubleSerializer ds);
    ("boolean", BooleanSerializer ds);
    ("null", NullSerializer ds);
    ("short", ShortSerializer ds);
    ("integer", IntegerSerializer ds);
    ("long", LongSerializer ds);
    ("float", FloatSerializer ds);
    ("booleanArray", BooleanArraySerializer ds);
    ("shortArray", ShortArraySerializer ds);
    ("integerArray", IntegerArraySerializer ds);
    ("longArray", LongArraySerializer ds);
    ("numberArray", DoubleArraySerializer ds);
    ("stringArray", StringArraySerializer ds);
    ("identified",
     IdentifiedDataSerializableSerializer ds (dataSerializableFactories cfg)) ].

Definition registerDefaultSerializers (ds : DefaultSerializers) (svc : Service)
    : Service * Result unit :=
  registerAll (defaultEntries ds (serialiationConfig svc)) svc.

Definition emptyService (cfg : SerializationConfig) : Service :=
  {| registry := ∅; serializerNameToId := ∅; serialiationConfig := cfg |}.

(** [new SerializationServiceV1(serializationConfig)]. *)
Definition newSerializationServiceV1 (ds : DefaultSerializers)
    (serializationConfig : SerializationConfig) : Result Service :=
  match registerDefaultSerializers ds (emptyService serializationConfig) with
  | (svc, Ok _) => Ok svc
  | (_, Throw e) => Throw e
  end.

(* ===================================================================== *)
(** ** The error names of the specification *)
(* ===================================================================== *)

(** The taxonomy of the specification, next to the exceptions of the
    code: the source throws three [RangeError]s of its own, which are the
    specification's Unserializable, DuplicateName and DuplicateTag; the
    stream primitives raise OutOfRange; the engine's [TypeError]s belong
    to none of the names. *)
Inductive SpecError : Type :=
| Unserializable
| NoSerializerFound (shape : string)
| UnknownType
| DuplicateName
| DuplicateTag
| ReadOutOfRange.

Definition specErrorOf (e : Error) : option SpecError :=
  match e with
  | RangeError msg =>
      if String.eqb msg UNDEFINED_NOT_SERIALIZABLE then Some Unserializable
      else if String.eqb msg NAME_IN_REGISTRY then Some DuplicateName
      else if String.eqb msg ID_IN_REGISTRY then Some DuplicateTag
      else None
  | OutOfRange => Some ReadOutOfRange
  | TypeErrorRead _ _ => None
  | TypeErrorNotAFunction _ => None
  end.

(** [r] is a failure that the specification calls [k]. *)
Definition failsWith {A : Type} (r : Result A) (k : SpecError) : Prop :=
  exists e, r = Throw e /\ specErrorOf e = Some k.

(** The round trip of the engine. *)
Definition roundTrip (svc : Service) (v : JSValue) : Result JSValue :=
  let* d := toData svc v None in
  toObject svc d.

(** The envelope [[hash][tag][payload]] with both header fields in one
    byte order. *)
Definition envelopeLayout (headerBigEndian : bool) (hash tag : Z)
    (payload : list octet) : list octet :=
  encodeInt INT_SIZE_IN_BYTES headerBigEndian hash
  ++ encodeInt INT_SIZE_IN_BYTES headerBigEndian tag
  ++ payload.

(** A value has the member [name] as a method. *)
Definition hasMethod (v : JSValue) (name : string) : Prop :=
  exists ret, getProp v name = Ok (JFunction ret).

(** The capability set of an identified custom type. *)
Definition exposesIdentified (v : JSValue) : Prop :=
  hasMethod v "readData" /\ hasMethod v "writeData"
  /\ hasMethod v "getClassId" /\ hasMethod v "getFactoryId".

(* ===================================================================== *)
(** ** ClientMessage and MultiMapIsLockedCodec *)
(* ===================================================================== *)

(** Strings are held as their UTF-8 bytes, one character per byte. *)
Definition utf8 (str : string) : list octet :=
  map (fun a => Z.of_N (N_of_ascii a)) (list_ascii_of_string str).

(** Modelled from the spec: [BitsUtil] is not under src/.  A string and
    an envelope each contribute a 4-byte length prefix plus their content
    length. *)
Definition calculateSizeString (str : string) : nat :=
  (INT_SIZE_IN_BYTES + List.length (utf8 str))%nat.

Definition calculateSizeData (data : HeapData) : nat :=
  (INT_SIZE_IN_BYTES + totalSize data)%nat.

(** Modelled from the spec: the widths the remote protocol version fixes
    for the header [[4 bytes frameLength][typeTag][retryableFlag]
    [correlationId]], and the byte order of the message's integers. *)
Record Protocol : Type := mkProtocol {
  typeTagSize : nat;
  correlationIdSize : nat;
  messageBigEndian : bool
}.

Definition FRAME_LENGTH_FIELD_OFFSET : nat := 0.
Definition TYPE_FIELD_OFFSET : nat := 4.
Definition RETRYABLE_FIELD_OFFSET (p : Protocol) : nat := (4 + typeTagSize p)%nat.
Definition CORRELATION_ID_FIELD_OFFSET (p : Protocol) : nat :=
  (4 + typeTagSize p + 1)%nat.
Definition HEADER_SIZE (p : Protocol) : nat :=
  (4 + typeTagSize p + 1 + correlationIdSize p)%nat.

(** Modelled from the spec: [ClientMessage] is not under src/.  A buffer
    of fixed length, a header at its start and a cursor for the body
    fields; a write or a read that does not fit in the buffer fails with
    [OutOfRange]. *)
Record ClientMessage : Type := mkClientMessage {
  cm_buffer : list octet;
  cm_cursor : nat
}.

Definition writeAt (buffer : list octet) (pos : nat) (bs : list octet)
    : Result (list octet) :=
  if (pos + List.length bs <=? List.length buffer)%nat
  then Ok (firstn pos buffer ++ bs ++ skipn (pos + List.length bs) buffer)
  else Throw OutOfRange.

(** The buffer holds the header and a body of [payloadSize] bytes. *)
Definition newClientMessage (p : Protocol) (payloadSize : nat) : ClientMessage :=
  {| cm_buffer := repeat 0 (HEADER_SIZE p + payloadSize);
     cm_cursor := HEADER_SIZE p |}.

Definition setField (m : ClientMessage) (pos : nat) (bs : list octet)
    : Result ClientMessage :=
  let* buffer := writeAt (cm_buffer m) pos bs in
  Ok {| cm_buffer := buffer; cm_cursor := cm_cursor m |}.

Definition setMessageType (p : Protocol) (m : ClientMessage) (type : Z)
    : Result ClientMessage :=
  setField m TYPE_FIELD_OFFSET (encodeInt (typeTagSize p) (messageBigEndian p) type).

Definition setRetryable (p : Protocol) (m : ClientMessage) (retryable : bool)
    : Result ClientMessage :=
  setField m (RETRYABLE_FIELD_OFFSET p) [if retryable then 1 else 0].

Definition appendBytes (m : ClientMessage) (bs : list octet) : Result ClientMessage :=
  let* buffer := writeAt (cm_buffer m) (cm_cursor m) bs in
  Ok {| cm_buffer := buffer; cm_cursor := (cm_cursor m + List.length bs)%nat |}.

Definition appendInt (p : Protocol) (m : ClientMessage) (z : Z) : Result ClientMessage :=
  appendBytes m (encodeInt INT_SIZE_IN_BYTES (messageBigEndian p) z).

Definition appendString (p : Protocol) (m : ClientMessage) (str : string)
    : Result ClientMessage :=
  let* m := appendInt p m (Z.of_nat (List.length (utf8 str))) in
  appendBytes m (utf8 str).

Definition appendData (p : Protocol) (m : ClientMessage) (data : HeapData)
    : Result ClientMessage :=
  let* m := appendInt p m (Z.of_nat (totalSize data)) in
  appendBytes m (data_toBuffer data).

(** The frame-length field is patched to the final buffer length. *)
Definition updateFrameLength (p : Protocol) (m : ClientMessage) : Result ClientMessage :=
  setField m FRAME_LENGTH_FIELD_OFFSET
    (encodeInt INT_SIZE_IN_BYTES (messageBigEndian p)
       (Z.of_nat (List.length (cm_buffer m)))).

Definition cm_readBoolean (m : ClientMessage) : Result (bool * ClientMessage) :=
  match nth_error (cm_buffer m) (cm_cursor m) with
  | Some b => Ok (b =? 1, {| cm_buffer := cm_buffer m; cm_cursor := S (cm_cursor m) |})
  | None => Throw OutOfRange
  end.

Definition RESPONSE_TYPE : Z := 101.
Definition RETRYABLE : bool := true.

(** The object [decodeResponse] returns. *)
Record Parameters : Type := mkParameters { response : JSValue }.

Section MultiMapIsLockedCodec.

(** The protocol version, and [MultiMapMessageType.MULTIMAP_ISLOCKED],
    a constant of a module that is not under src/. *)
Variable proto : Protocol.
Variable MULTIMAP_ISLOCKED : Z.

Definition REQUEST_TYPE : Z := MULTIMAP_ISLOCKED.

Definition calculateSize (name : string) (key : HeapData) : nat :=
  let dataSize := O in
  let dataSize := (dataSize + calculateSizeString name)%nat in
  let dataSize := (dataSize + calculateSizeData key)%nat in
  dataSize.

Definition encodeRequest (name : string) (key : HeapData) : Result ClientMessage :=
  let clientMessage := newClientMessage proto (calculateSize name key) in
  let* clientMessage := setMessageType proto clientMessage REQUEST_TYPE in
  let* clientMessage := setRetryable proto clientMessage RETRYABLE in
  let* clientMessage := appendString proto clientMessage name in
  let* clientMessage := appendData proto clientMessage key in
  let* clientMessage := updateFrameLength proto clientMessage in
  Ok clientMessage.

(** [toObjectFunction] defaults to null, hence the option; a converter
    may throw.  The message is returned with its cursor moved. *)
Definition decodeResponse (clientMessage : ClientMessage)
    (toObjectFunction : option (HeapData -> Result JSValue))
    : Result (Parameters * ClientMessage) :=
  let parameters := {| response := JNull |} in
  let* (b, clientMessage) := cm_readBoolean clientMessage in
  let parameters := {| response := JBool b |} in
  Ok (parameters, clientMessage).

End MultiMapIsLockedCodec.

(* ===================================================================== *)
(** ** Sample serializers, services and messages *)
(* ===================================================================== *)

Module Samples.

(** Modelled from the spec: [DefaultSerializer] is not under src/.
    Serializers for a boolean (one byte), for null (no payload), for
    arrays and for an identified custom type (factory id, then class
    id), with tags of their own, to have concrete registries at hand. *)
Definition booleanSerializer : Serializer :=
  {| getId := -4;
     read := fun inp => let* (b, _) := readBoolean inp in Ok (JBool b);
     write := fun out v => Ok (writeBoolean out (truthy v)) |}.

Definition nullSerializer : Serializer :=
  {| getId := 0;
     read := fun _ => Ok JNull;
     write := fun out _ => Ok out |}.

(** Array payloads are [[4 bytes count][count x element encoding]]. *)
Fixpoint readMany (n : nat) (readOne : DataInput -> Result (JSValue * DataInput))
    (inp : DataInput) : Result (list JSValue * DataInput) :=
  match n with
  | O => Ok ([], inp)
  | S n' =>
      let* (v, inp) := readOne inp in
      let* (vs, inp) := readMany n' readOne inp in
      Ok (v :: vs, inp)
  end.

Definition arrayElements (v : JSValue) : list JSValue :=
  match v with
  | JArray elems _ => elems
  | _ => []
  end.

Definition arraySerializer (id : Z)
    (readOne : DataInput -> Result (JSValue * DataInput))
    (writeOne : DataOutput -> JSValue -> DataOutput) : Serializer :=
  {| getId := id;
     read := fun inp =>
       let* (n, inp) := readInt inp in
       let* (vs, _) := readMany (Z.to_nat n) readOne inp in
       Ok (JArray vs []);
     write := fun out v =>
       Ok (fold_left writeOne (arrayElements v)
             (writeInt out (Z.of_nat (arrayLength v)))) |}.

Definition booleanArraySerializer : Serializer :=
  arraySerializer (-13)
    (fun inp => let* (b, inp) := readBoolean inp in Ok (JBool b, inp))
    (fun out v => writeBoolean out (truthy v)).

(** The elements of a number array as 32-bit integers. *)
Definition numberArraySerializer : Serializer :=
  arraySerializer (-17)
    (fun inp => let* (n, inp) := readInt inp in Ok (JNumber n, inp))
    (fun out v => writeInt out (match v with JNumber n => n | _ => 0 end)).

Definition identifiedSerializer : Serializer :=
  {| getId := -2;
     read := fun inp =>
       let* (f, inp) := readInt inp in
       let* (c, _) := readInt inp in
       Ok (JObject [("getFactoryId", JFunction f); ("getClassId", JFunction c)]);
     write := fun out v =>
       let* f := getProp v "getFactoryId" in
       let* fid := call0 "getFactoryId" f in
       let* c := getProp v "getClassId" in
       let* cid := call0 "getClassId" c in
       Ok (writeInt (writeInt out fid) cid) |}.

Definition littleEndianConfig : SerializationConfig :=
  {| isBigEndian := false; dataSerializableFactories := [] |}.

Definition bigEndianConfig : SerializationConfig :=
  {| isBigEndian := true; dataSerializableFactories := [] |}.

(** A service with five registrations. *)
Definition service (cfg : SerializationConfig) : Service :=
  fst (registerAll
         [ ("boolean", booleanSerializer);
           ("null", nullSerializer);
           ("booleanArray", booleanArraySerializer);
           ("numberArray", numberArraySerializer);
           ("identified", identifiedSerializer) ]
         (emptyService cfg)).

Definition capabilities : list (string * JSValue) :=
  [ ("readData", JFunction 0); ("writeData", JFunction 0);
    ("getClassId", JFunction 7); ("getFactoryId", JFunction 1) ].

(** An array whose later elements are not of the first one's shape. *)
Definition mixedArray : JSValue := JArray [JBool true; JString "x"; JNumber 5] [].

(** An array that is also an identified custom type. *)
Definition identifiedArray : JSValue := JArray [JNumber 1; JNumber 2] capabilities.

(** An envelope whose tag, 99, no serializer of [service] has. *)
Definition unknownEnvelope : HeapData :=
  mkHeapData [0; 0; 0; 0; 0; 0; 0; 99; 1].

Definition booleanEnvelope : HeapData :=
  mkHeapData [0; 0; 0; 0; 255; 255; 255; 252; 1].

Definition protocol : Protocol :=
  {| typeTagSize := 2; correlationIdSize := 8; messageBigEndian := false |}.

Definition key : HeapData := mkHeapData [0; 0; 0; 0; 255; 255; 255; 252; 1].

(** A value for [MultiMapMessageType.MULTIMAP_ISLOCKED]. *)
Definition requestType : Z := 530.

(** A response whose body is the single byte 1. *)
Definition trueResponse : ClientMessage :=
  {| cm_buffer := repeat 0 (HEADER_SIZE protocol) ++ [1];
     cm_cursor := HEADER_SIZE protocol |}.

End Samples.

(* ===================================================================== *)
(** ** Registry invariant, JsonSerializationService, default registries *)
(* ===================================================================== *)

(** What the registry keeps: every tag the name table reaches is bound,
    every serializer sits under its own tag, and no two names share a
    tag. *)
Definition wellFormed (svc : Service) : Prop :=
  (forall name id, serializerNameToId svc !! name = Some id ->
                   exists s, registry svc !! id = Some s)
  /\ (forall id s, registry svc !! id = Some s -> getId s = id)
  /\ (forall n1 n2 id, serializerNameToId svc !! n1 = Some id ->
                       serializerNameToId svc !! n2 = Some id -> n1 = n2).

Definition entryNames (entries : list (string * Serializer)) : list string :=
  map fst entries.

Definition entryIds (entries : list (string * Serializer)) : list Z :=
  map (fun e => getId (snd e)) entries.

(** The tags of [entries] are pairwise distinct and none is bound yet. *)
Definition tagsFree (svc : Service) (entries : list (string * Serializer)) : Prop :=
  NoDup (entryIds entries)
  /\ Forall (fun id => registry svc !! id = None) (entryIds entries).

(** [obj[name]] is there and truthy. *)
Definition hasTruthyMember (obj : JSValue) (name : string) : bool :=
  match getProp obj name with
  | Ok m => truthy m
  | Throw _ => false
  end.

(** The bytes of a buffer read back as a string, one character per byte. *)
Definition unutf8 (bs : list octet) : string :=
  string_of_list_ascii (map (fun b => ascii_of_N (Z.to_N b)) bs).

(** [buffer.write(string, offset)] of a Node buffer: the bytes that fit
    are written, the rest is dropped. *)
Definition bufferWrite (buffer : list octet) (pos : nat) (bs : list octet) : list octet :=
  let written := firstn (List.length buffer - pos) bs in
  firstn pos buffer ++ written ++ skipn (pos + List.length written) buffer.

(** [buffer.writeInt32BE(value, offset)]; it needs four bytes at
    [offset]. *)
Definition writeInt32BE (buffer : list octet) (value : Z) (offset : nat)
    : Result (list octet) :=
  writeAt buffer offset (encodeInt INT_SIZE_IN_BYTES true value).

Module JsonSerializationService.

Section Json.

(** [JSON.stringify] and [JSON.parse] of the engine.  [JSON.stringify]
    answers [undefined] for a value without a JSON text (None here).
    Strings are one character per byte, so [jsonString.length] and
    [Buffer.byteLength(jsonString, 'utf8')] are the same number. *)
Variable JSON_stringify : JSValue -> option string.
Variable JSON_parse : string -> Result JSValue.

(** [new Buffer(size)]: [size] bytes whose content is whatever the
    allocator left there. *)
Variable newBuffer : nat -> list octet.

Definition toData (object : JSValue) : Result HeapData :=
  match JSON_stringify object with
  | None => Throw (TypeErrorRead "length" OfUndefined)
  | Some jsonString =>
      let buffer := newBuffer (12 + List.length (utf8 jsonString)) in
      let* buffer := writeInt32BE buffer 0 0 in
      let* buffer := writeInt32BE buffer (-11) 4 in
      let* buffer := writeInt32BE buffer (Z.of_nat (String.length jsonString)) 8 in
      let buffer := bufferWrite buffer 12 (utf8 jsonString) in
      Ok (mkHeapData buffer)
  end.

(** [data == null] holds for null and undefined: None here. *)
Definition toObject (data : option HeapData) : Result JSValue :=
  match data with
  | None => Ok JNull
  | Some data => JSON_parse (unutf8 (skipn 12 (data_toBuffer data)))
  end.

End Json.

End JsonSerializationService.


Module Defaults.

(** A serializer with the tag [id] and no payload. *)
Definition emptyPayloadSerializer (id : Z) : Serializer :=
  {| getId := id;
     read := fun _ => Ok JNull;
     write := fun out _ => Ok out |}.

(** Fifteen serializers with tags of their own for the constructor. *)
Definition serializers : DefaultSerializers :=
  {| StringSerializer := emptyPayloadSerializer (-11);
     DoubleSerializer := emptyPayloadSerializer (-10);
     BooleanSerializer := Samples.booleanSerializer;
     NullSerializer := Samples.nullSerializer;
     ShortSerializer := emptyPayloadSerializer (-6);
     IntegerSerializer := emptyPayloadSerializer (-7);
     LongSerializer := emptyPayloadSerializer (-8);
     FloatSerializer := emptyPayloadSerializer (-9);
     BooleanArraySerializer := Samples.booleanArraySerializer;
     ShortArraySerializer := emptyPayloadSerializer (-15);
     IntegerArraySerializer := emptyPayloadSerializer (-16);
     LongArraySerializer := emptyPayloadSerializer (-18);
     DoubleArraySerializer := Samples.numberArraySerializer;
     StringArraySerializer := emptyPayloadSerializer (-20);
     IdentifiedDataSerializableSerializer := fun _ => Samples.identifiedSerializer |}.

(** The same, but the float serializer has the tag of the boolean one. *)
Definition clashing : DefaultSerializers :=
  {| StringSerializer := emptyPayloadSerializer (-11);
     DoubleSerializer := emptyPayloadSerializer (-10);
     BooleanSerializer := Samples.booleanSerializer;
     NullSerializer := Samples.nullSerializer;
     ShortSerializer := emptyPayloadSerializer (-6);
     IntegerSerializer := emptyPayloadSerializer (-7);
     LongSerializer := emptyPayloadSerializer (-8);
     FloatSerializer := emptyPayloadSerializer (-4);
     BooleanArraySerializer := Samples.booleanArraySerializer;
     ShortArraySerializer := emptyPayloadSerializer (-15);
     IntegerArraySerializer := emptyPayloadSerializer (-16);
     LongArraySerializer := emptyPayloadSerializer (-18);
     DoubleArraySerializer := Samples.numberArraySerializer;
     StringArraySerializer := emptyPayloadSerializer (-20);
     IdentifiedDataSerializableSerializer := fun _ => Samples.identifiedSerializer |}.

(** [JSON.stringify] on the few values the examples use. *)
Definition stringify (v : JSValue) : option string :=
  match v with
  | JNull => Some "null"
  | JBool true => Some "true"
  | JBool false => Some "false"
  | JArray [] _ => Some "[]"
  | _ => None
  end.

Definition parse (text : string) : Result JSValue :=
  if String.eqb text "null" then Ok JNull
  else if String.eqb text "true" then Ok (JBool true)
  else if String.eqb text "false" then Ok (JBool false)
  else if String.eqb text "[]" then Ok (JArray [] [])
  else Throw (RangeError "Unexpected token").

End Defaults.

(* ===================================================================== *)
(** ** Properties of the serialization engine *)
(* ===================================================================== *)

Lemma specErrorOf_TypeErrorRead (prop : string) (base : Nullish) (k : SpecError) :
  specErrorOf (TypeErrorRead prop base) <> Some k.
Proof. simpl. discriminate. Qed.

Lemma deref_absent {A : Type} (prop : string) (r : Ref A) :
  (forall a, r <> RObj a) ->
  exists base, deref prop r = Throw (TypeErrorRead prop base).
Proof.
  intros Habs. destruct r as [| |a].
  - exists OfNull. reflexivity.
  - exists OfUndefined. reflexivity.
  - exfalso. apply (Habs a). reflexivity.
Qed.

Lemma findSerializerByName_unregistered (svc : Service) (name : string) (isArray : bool) :
  serializerNameToId svc !! String.append name (if isArray then "Array" else "") = None ->
  findSerializerByName svc name isArray = RNull.
Proof. intros H. unfold findSerializerByName. rewrite H. reflexivity. Qed.

Lemma hasMethod_truthy (v : JSValue) (name : string) :
  hasMethod v name -> exists m, getProp v name = Ok m /\ truthy m = true.
Proof. intros [ret H]. exists (JFunction ret). split; [exact H | reflexivity]. Qed.

Lemma isIdentified_of_truthy (v r w c f : JSValue) :
  getProp v "readData" = Ok r -> truthy r = true ->
  getProp v "writeData" = Ok w -> truthy w = true ->
  getProp v "getClassId" = Ok c -> truthy c = true ->
  getProp v "getFactoryId" = Ok f -> truthy f = true ->
  isIdentifiedDataSerializable v = Ok true.
Proof.
  intros Hr Tr Hw Tw Hc Tc Hf Tf. unfold isIdentifiedDataSerializable.
  rewrite Hr. simpl. rewrite Tr. simpl.
  rewrite Hw. simpl. rewrite Tw. simpl.
  rewrite Hc. simpl. rewrite Tc. simpl.
  rewrite Hf. simpl. rewrite Tf. reflexivity.
Qed.

Lemma isIdentified_exposes (v : JSValue) :
  exposesIdentified v -> isIdentifiedDataSerializable v = Ok true.
Proof.
  intros (Hr & Hw & Hc & Hf).
  apply hasMethod_truthy in Hr as (r & Hr & Tr).
  apply hasMethod_truthy in Hw as (w & Hw & Tw).
  apply hasMethod_truthy in Hc as (c & Hc & Tc).
  apply hasMethod_truthy in Hf as (f & Hf & Tf).
  exact (isIdentified_of_truthy v r w c f Hr Tr Hw Tw Hc Tc Hf Tf).
Qed.

Lemma findSerializerFor_identified (svc : Service) (v : JSValue) :
  isIdentifiedDataSerializable v = Ok true ->
  v <> JUndefined ->
  findSerializerFor svc v = Ok (findSerializerByName svc "identified" false).
Proof.
  intros Hid Hdef. unfold findSerializerFor.
  destruct v; try (rewrite Hid; reflexivity).
  exfalso. apply Hdef. reflexivity.
Qed.


(** C1.  The engine does not serialize null: for every service and every
    partitioning strategy, [toData(null)] throws the engine's TypeError
    raised by the member read [obj.readData] on null in
    [isIdentifiedDataSerializable], which [findSerializerFor] reaches
    before it classifies the value.  The failure is not the
    Unserializable error, which stays reserved for undefined. *)
Theorem toData_null_throws (svc : Service) (strategy : option Strategy) :
  toData svc JNull strategy = Throw (TypeErrorRead "readData" OfNull)
  /\ ~ failsWith (toData svc JNull strategy) Unserializable
  /\ failsWith (toData svc JUndefined strategy) Unserializable.
Proof.
  split; [reflexivity|]. split.
  - intros (e & He & Hk). simpl in He. inversion He; subst. discriminate.
  - exists (RangeError UNDEFINED_NOT_SERIALIZABLE). split; reflexivity.
Qed.

(** C2.  The round trip fails at null, a value of the supported shape
    set: for every service, [toObject(toData(null))] throws and returns
    no value. *)
Theorem roundTrip_null_throws (svc : Service) :
  roundTrip svc JNull = Throw (TypeErrorRead "readData" OfNull)
  /\ roundTrip svc JNull <> Ok JNull.
Proof. split; [reflexivity | discriminate]. Qed.






Lemma specErrorOf_not_NoSerializerFound (e : Error) (shape : string) :
  specErrorOf e <> Some (NoSerializerFound shape).
Proof.
  destruct e as [msg| | |]; simpl; try discriminate.
  destruct (String.eqb msg UNDEFINED_NOT_SERIALIZABLE); [discriminate|].
  destruct (String.eqb msg NAME_IN_REGISTRY); [discriminate|].
  destruct (String.eqb msg ID_IN_REGISTRY); discriminate.
Qed.

Lemma specErrorOf_not_UnknownType (e : Error) :
  specErrorOf e <> Some UnknownType.
Proof.
  destruct e as [msg| | |]; simpl; try discriminate.
  destruct (String.eqb msg UNDEFINED_NOT_SERIALIZABLE); [discriminate|].
  destruct (String.eqb msg NAME_IN_REGISTRY); [discriminate|].
  destruct (String.eqb msg ID_IN_REGISTRY); discriminate.
Qed.

(** C7, as amended.  When the resolution of a value comes back without a
    serializer (null from the name table, undefined from the tag table),
    [toData] fails; once the partitioning strategy has returned, the
    failure is the engine's TypeError raised by [serializer.getId()] on
    the missing serializer.  No failure of [toData] is a NoSerializerFound
    error and none names the shape. *)
Theorem toData_without_serializer (svc : Service) (v : JSValue)
    (strategy : option Strategy) (r : Ref Serializer) :
  findSerializerFor svc v = Ok r ->
  (forall s, r <> RObj s) ->
  (exists e, toData svc v strategy = Throw e
             /\ forall shape, specErrorOf e <> Some (NoSerializerFound shape))
  /\ (forall hash, strategyOr strategy v = Ok hash ->
      exists base, toData svc v strategy = Throw (TypeErrorRead "getId" base)).
Proof.
  intros Hfind Habs.
  destruct (deref_absent "getId" r Habs) as [base Hbase].
  unfold toData, toDataWith, calculatePartitionHash. rewrite Hfind. simpl.
  destruct (strategyOr strategy v) as [hash|e] eqn:Hstrat; simpl.
  - rewrite Hbase. simpl. split.
    + eexists. split; [reflexivity|]. intros shape. apply specErrorOf_TypeErrorRead.
    + intros hash' _. exists base. reflexivity.
  - split.
    + exists e. split; [reflexivity|]. intros shape. apply specErrorOf_not_NoSerializerFound.
    + intros hash' Hok. discriminate Hok.
Qed.

Lemma toData_without_serializer_witness :
  findSerializerFor (Samples.service Samples.bigEndianConfig) (JObject []) = Ok RNull
  /\ exists base,
       toData (Samples.service Samples.bigEndianConfig) (JObject []) None
       = Throw (TypeErrorRead "getId" base).
Proof.
  split; [reflexivity|].
  assert (Habs : forall s : Serializer, RNull <> RObj s) by (intros s; discriminate).
  destruct (toData_without_serializer (Samples.service Samples.bigEndianConfig)
              (JObject []) None RNull eq_refl Habs) as (_ & Hthrow).
  exact (Hthrow 0 eq_refl).
Defined.

(** C7, counterexample.  A plain object has no serializer in the sample
    service; [toData] fails on it with the TypeError of reading [getId]
    of null, which is no NoSerializerFound error for any shape name. *)
Lemma toData_without_serializer_counterexample :
  toData (Samples.service Samples.bigEndianConfig) (JObject []) None
    = Throw (TypeErrorRead "getId" OfNull)
  /\ ~ (exists shape,
         failsWith (toData (Samples.service Samples.bigEndianConfig) (JObject []) None)
           (NoSerializerFound shape)).
Proof.
  split; [reflexivity|].
  intros (shape & e & He & Hk).
  exact (specErrorOf_not_NoSerializerFound e shape Hk).
Qed.

(** C9, as amended.  [toObject] resolves the serializer by the type tag
    of the envelope.  With no serializer bound to the tag it fails with
    the engine's TypeError raised by [serializer.read] on undefined; with
    a serializer bound it returns what that serializer's reader returns
    on the envelope's buffer, positioned right after the two 4-byte
    header fields, in the configured byte order. *)
Theorem toObject_by_tag (svc : Service) (data : HeapData) (tag : Z) :
  data_getType data = Ok tag ->
  (registry svc !! tag = None ->
   toObject svc data = Throw (TypeErrorRead "read" OfUndefined))
  /\ (forall s, registry svc !! tag = Some s ->
      toObject svc data =
      read s (newObjectDataInput (heap_buffer data)
                (INT_SIZE_IN_BYTES + INT_SIZE_IN_BYTES)
                (isBigEndian (serialiationConfig svc)))).
Proof.
  intros Htag. unfold toObject, findSerializerById. rewrite Htag. simpl.
  split.
  - intros Hnone. rewrite Hnone. reflexivity.
  - intros s Hsome. rewrite Hsome. reflexivity.
Qed.

Lemma toObject_by_tag_witness :
  data_getType Samples.unknownEnvelope = Ok 99
  /\ toObject (Samples.service Samples.bigEndianConfig) Samples.unknownEnvelope
     = Throw (TypeErrorRead "read" OfUndefined)
  /\ toObject (Samples.service Samples.bigEndianConfig) Samples.booleanEnvelope
     = Ok (JBool true).
Proof.
  split; [reflexivity|]. split.
  - destruct (toObject_by_tag (Samples.service Samples.bigEndianConfig)
                Samples.unknownEnvelope 99 eq_refl) as (Hnone & _).
    apply Hnone. reflexivity.
  - destruct (toObject_by_tag (Samples.service Samples.bigEndianConfig)
                Samples.booleanEnvelope (-4) eq_refl) as (_ & Hsome).
    rewrite (Hsome Samples.booleanSerializer eq_refl). reflexivity.
Defined.

(** C9, counterexample.  The envelope with tag 99, which the sample
    service does not bind, makes [toObject] fail with a TypeError; the
    failure is not an UnknownType error. *)
Lemma toObject_by_tag_counterexample :
  registry (Samples.service Samples.bigEndianConfig) !! 99 = None
  /\ toObject (Samples.service Samples.bigEndianConfig) Samples.unknownEnvelope
     = Throw (TypeErrorRead "read" OfUndefined)
  /\ ~ failsWith (toObject (Samples.service Samples.bigEndianConfig)
                    Samples.unknownEnvelope) UnknownType.
Proof.
  split; [reflexivity|]. split; [reflexivity|].
  intros (e & He & Hk). exact (specErrorOf_not_UnknownType e Hk).
Qed.

Lemma leBytes_length (w : nat) (z : Z) : List.length (leBytes w z) = w.
Proof.
  revert z. induction w as [|w IH]; intros z; simpl; [reflexivity|].
  rewrite IH. reflexivity.
Qed.

Lemma encodeInt_length (w : nat) (bigEndian : bool) (z : Z) :
  List.length (encodeInt w bigEndian z) = w.
Proof.
  unfold encodeInt. destruct bigEndian.
  - rewrite length_rev. apply leBytes_length.
  - apply leBytes_length.
Qed.

(** C8, as amended.  The envelope [toData] returns is the 4-byte
    partition hash, then the 4-byte tag of the resolved serializer, then
    the payload; the two header fields are big-endian whatever byte order
    is configured, and the payload is what the serializer appends to a
    stream that carries the configured byte order. *)
Theorem toData_envelope_layout (svc : Service) (v : JSValue)
    (strategy : option Strategy) (s : Serializer) (hash : Z)
    (out' : DataOutput) (payload : list octet) :
  let header :=
    encodeInt INT_SIZE_IN_BYTES true hash ++ encodeInt INT_SIZE_IN_BYTES true (getId s) in
  findSerializerFor svc v = Ok (RObj s) ->
  strategyOr strategy v = Ok hash ->
  write s {| out_buffer := header;
             out_bigEndian := isBigEndian (serialiationConfig svc) |} v = Ok out' ->
  out_buffer out' = header ++ payload ->
  toData svc v strategy = Ok (mkHeapData (envelopeLayout true hash (getId s) payload))
  /\ List.length header = 8%nat.
Proof.
  intros header Hfind Hstrat Hwrite Hpayload. split.
  - unfold toData. rewrite Hfind. cbn [bind].
    unfold toDataWith, calculatePartitionHash. rewrite Hstrat. cbn [bind deref].
    change (writeIntBE
              (writeIntBE (newObjectDataOutput (isBigEndian (serialiationConfig svc))) hash)
              (getId s))
      with {| out_buffer := header;
              out_bigEndian := isBigEndian (serialiationConfig svc) |}.
    rewrite Hwrite. cbn [bind].
    unfold toBuffer, envelopeLayout. rewrite Hpayload.
    unfold header. rewrite <- app_assoc. reflexivity.
  - unfold header. rewrite length_app, !encodeInt_length. reflexivity.
Qed.

Lemma toData_envelope_layout_witness :
  findSerializerFor (Samples.service Samples.littleEndianConfig) Samples.identifiedArray
    = Ok (RObj Samples.identifiedSerializer)
  /\ toData (Samples.service Samples.littleEndianConfig) Samples.identifiedArray None
     = Ok (mkHeapData ([0; 0; 0; 0] ++ [255; 255; 255; 254] ++ [1; 0; 0; 0; 7; 0; 0; 0])).
Proof.
  split; [reflexivity|].
  destruct (toData_envelope_layout (Samples.service Samples.littleEndianConfig)
              Samples.identifiedArray None Samples.identifiedSerializer 0
              {| out_buffer := [0; 0; 0; 0; 255; 255; 255; 254; 1; 0; 0; 0; 7; 0; 0; 0];
                 out_bigEndian := false |}
              [1; 0; 0; 0; 7; 0; 0; 0]
              eq_refl eq_refl eq_refl eq_refl) as (Hdata & _).
  rewrite Hdata. reflexivity.
Defined.

(** C8, counterexample.  Under the little-endian configuration the
    envelope of [true] carries the tag -4 as FF FF FF FC, the big-endian
    bytes; no payload makes it the layout with little-endian header
    fields. *)
Lemma toData_envelope_layout_counterexample :
  toData (Samples.service Samples.littleEndianConfig) (JBool true) None
    = Ok (mkHeapData [0; 0; 0; 0; 255; 255; 255; 252; 1])
  /\ encodeInt INT_SIZE_IN_BYTES false (-4) = [252; 255; 255; 255]
  /\ forall payload,
       [0; 0; 0; 0; 255; 255; 255; 252; 1]
       <> envelopeLayout
            (isBigEndian (serialiationConfig (Samples.service Samples.littleEndianConfig)))
            0 (-4) payload.
Proof.
  split; [reflexivity|]. split; [reflexivity|].
  intros payload H. vm_compute in H. discriminate H.
Qed.

(* ===================================================================== *)
(** ** Properties of the registry *)
(* ===================================================================== *)

Lemma registerSerializer_duplicate_name (svc : Service) (name : string)
    (serializer : Serializer) (id : Z) :
  serializerNameToId svc !! name = Some id -> id <> 0 ->
  registerSerializer name serializer svc = (svc, Throw (RangeError NAME_IN_REGISTRY)).
Proof.
  intros Hname Hid. unfold registerSerializer, nameGuard. rewrite Hname. simpl.
  destruct (Z.eqb_spec id 0) as [->|_]; [contradiction|]. reflexivity.
Qed.

Lemma registerSerializer_duplicate_tag (svc : Service) (name : string)
    (serializer bound : Serializer) :
  nameGuard svc name = false ->
  registry svc !! getId serializer = Some bound ->
  registerSerializer name serializer svc = (svc, Throw (RangeError ID_IN_REGISTRY)).
Proof.
  intros Hname Hid. unfold registerSerializer, idGuard. rewrite Hname, Hid. reflexivity.
Qed.

Lemma registerSerializer_fresh (svc : Service) (name : string) (serializer : Serializer) :
  serializerNameToId svc !! name = None ->
  registry svc !! getId serializer = None ->
  registerSerializer name serializer svc = (registered name serializer svc, Ok tt)
  /\ serializerNameToId (registered name serializer svc) !! name = Some (getId serializer)
  /\ registry (registered name serializer svc) !! getId serializer = Some serializer.
Proof.
  intros Hname Hid. split; [|split].
  - unfold registerSerializer, nameGuard, idGuard. rewrite Hname, Hid. reflexivity.
  - simpl. apply lookup_insert_eq.
  - simpl. apply lookup_insert_eq.
Qed.

Lemma registerSerializer_throw_unchanged (svc : Service) (name : string)
    (serializer : Serializer) (e : Error) :
  snd (registerSerializer name serializer svc) = Throw e ->
  fst (registerSerializer name serializer svc) = svc.
Proof.
  unfold registerSerializer.
  destruct (nameGuard svc name); [reflexivity|].
  destruct (idGuard svc (getId serializer)); [reflexivity|].
  simpl. discriminate.
Qed.

Lemma registerSerializer_tag_zero_passes (svc : Service) (name : string)
    (serializer : Serializer) :
  serializerNameToId svc !! name = Some 0 ->
  registry svc !! getId serializer = None ->
  registerSerializer name serializer svc = (registered name serializer svc, Ok tt).
Proof.
  intros Hname Hid. unfold registerSerializer, nameGuard, idGuard.
  rewrite Hname, Hid. reflexivity.
Qed.

(** C5.  The name guard of [registerSerializer] tests the truthiness of
    the tag the name maps to, so a name bound to the tag 0 passes it: in
    the registry where 'null' maps to the tag 0, registering another
    serializer under 'null' returns without an error and rebinds the name
    to the new tag -4. *)
Theorem registerSerializer_rebinds_name_of_tag_zero :
  let svc :=
    fst (registerSerializer "null" Samples.nullSerializer
           (emptyService Samples.bigEndianConfig)) in
  serializerNameToId svc !! "null" = Some 0
  /\ snd (registerSerializer "null" Samples.booleanSerializer svc) = Ok tt
  /\ serializerNameToId (fst (registerSerializer "null" Samples.booleanSerializer svc))
       !! "null" = Some (-4)
  /\ fst (registerSerializer "null" Samples.booleanSerializer svc) <> svc.
Proof.
  intros svc.
  assert (Hname : serializerNameToId svc !! "null" = Some 0) by reflexivity.
  assert (Hid : registry svc !! getId Samples.booleanSerializer = None) by reflexivity.
  pose proof (registerSerializer_tag_zero_passes svc "null" Samples.booleanSerializer
                Hname Hid) as Hreg.
  split; [exact Hname|]. rewrite Hreg. simpl.
  split; [reflexivity|]. split; [apply lookup_insert_eq|].
  intros Heq.
  assert (Hlook : serializerNameToId (registered "null" Samples.booleanSerializer svc)
                    !! "null" = Some 0) by (rewrite Heq; exact Hname).
  simpl in Hlook. rewrite lookup_insert_eq in Hlook. discriminate Hlook.
Qed.

(* ===================================================================== *)
(** ** Properties of the codec *)
(* ===================================================================== *)

Lemma writeAt_fits (buffer : list octet) (pos : nat) (bs : list octet) :
  (pos + List.length bs <= List.length buffer)%nat ->
  exists buffer', writeAt buffer pos bs = Ok buffer'
                  /\ List.length buffer' = List.length buffer.
Proof.
  intros Hfit. unfold writeAt.
  destruct (Nat.leb_spec (pos + List.length bs) (List.length buffer)) as [_|Hlt]; [|lia].
  eexists. split; [reflexivity|].
  rewrite !length_app, length_firstn, length_skipn. lia.
Qed.

Lemma setField_fits (m : ClientMessage) (pos : nat) (bs : list octet) :
  (pos + List.length bs <= List.length (cm_buffer m))%nat ->
  exists m', setField m pos bs = Ok m'
             /\ List.length (cm_buffer m') = List.length (cm_buffer m)
             /\ cm_cursor m' = cm_cursor m.
Proof.
  intros Hfit. unfold setField.
  destruct (writeAt_fits (cm_buffer m) pos bs Hfit) as (buffer' & Hw & Hlen).
  rewrite Hw. simpl. eexists. split; [reflexivity|]. simpl. split; [exact Hlen | reflexivity].
Qed.

Lemma appendBytes_fits (m : ClientMessage) (bs : list octet) :
  (cm_cursor m + List.length bs <= List.length (cm_buffer m))%nat ->
  exists m', appendBytes m bs = Ok m'
             /\ List.length (cm_buffer m') = List.length (cm_buffer m)
             /\ cm_cursor m' = (cm_cursor m + List.length bs)%nat.
Proof.
  intros Hfit. unfold appendBytes.
  destruct (writeAt_fits (cm_buffer m) (cm_cursor m) bs Hfit) as (buffer' & Hw & Hlen).
  rewrite Hw. simpl. eexists. split; [reflexivity|]. simpl. split; [exact Hlen | reflexivity].
Qed.

Lemma appendPrefixed_fits (p : Protocol) (m : ClientMessage) (bs : list octet) :
  (cm_cursor m + (INT_SIZE_IN_BYTES + List.length bs) <= List.length (cm_buffer m))%nat ->
  exists m',
    (let* m1 := appendInt p m (Z.of_nat (List.length bs)) in appendBytes m1 bs) = Ok m'
    /\ List.length (cm_buffer m') = List.length (cm_buffer m)
    /\ cm_cursor m' = (cm_cursor m + (INT_SIZE_IN_BYTES + List.length bs))%nat.
Proof.
  intros Hfit. unfold appendInt.
  destruct (appendBytes_fits m
              (encodeInt INT_SIZE_IN_BYTES (messageBigEndian p) (Z.of_nat (List.length bs))))
    as (m1 & H1 & Hlen1 & Hcur1).
  { rewrite encodeInt_length. lia. }
  rewrite encodeInt_length in Hcur1.
  rewrite H1. simpl.
  destruct (appendBytes_fits m1 bs) as (m2 & H2 & Hlen2 & Hcur2).
  { rewrite Hcur1, Hlen1. lia. }
  exists m2. split; [exact H2|]. split; [congruence|].
  rewrite Hcur2, Hcur1. unfold INT_SIZE_IN_BYTES. lia.
Qed.

(** C6, as amended.  [calculateSize(name, key)] is the size of the
    request payload, the size contributions of the two arguments without
    the header.  [encodeRequest(name, key)] returns a message whose
    buffer is the fixed header size plus [calculateSize(name, key)] bytes
    long, and the two appended fields fill the body to its last byte. *)
Theorem encodeRequest_size (proto : Protocol) (MULTIMAP_ISLOCKED : Z)
    (name : string) (key : HeapData) :
  calculateSize name key = (calculateSizeString name + calculateSizeData key)%nat
  /\ exists m,
       encodeRequest proto MULTIMAP_ISLOCKED name key = Ok m
       /\ List.length (cm_buffer m) = (HEADER_SIZE proto + calculateSize name key)%nat
       /\ cm_cursor m = List.length (cm_buffer m).
Proof.
  split; [reflexivity|].
  unfold encodeRequest.
  set (m0 := newClientMessage proto (calculateSize name key)).
  assert (Hlen0 : List.length (cm_buffer m0)
                  = (HEADER_SIZE proto + calculateSize name key)%nat).
  { unfold m0, newClientMessage. cbn [cm_buffer]. apply repeat_length. }
  assert (Hcur0 : cm_cursor m0 = HEADER_SIZE proto) by reflexivity.
  destruct (setField_fits m0 TYPE_FIELD_OFFSET
              (encodeInt (typeTagSize proto) (messageBigEndian proto) MULTIMAP_ISLOCKED))
    as (m1 & H1 & Hlen1 & Hcur1).
  { rewrite encodeInt_length, Hlen0. unfold TYPE_FIELD_OFFSET, HEADER_SIZE. lia. }
  unfold setMessageType, REQUEST_TYPE. rewrite H1. cbn [bind].
  destruct (setField_fits m1 (RETRYABLE_FIELD_OFFSET proto) [if RETRYABLE then 1 else 0])
    as (m2 & H2 & Hlen2 & Hcur2).
  { rewrite Hlen1, Hlen0. unfold RETRYABLE_FIELD_OFFSET, HEADER_SIZE. simpl. lia. }
  unfold setRetryable. rewrite H2. cbn [bind].
  destruct (appendPrefixed_fits proto m2 (utf8 name)) as (m3 & H3 & Hlen3 & Hcur3).
  { rewrite Hcur2, Hcur1, Hcur0, Hlen2, Hlen1, Hlen0.
    unfold calculateSize, calculateSizeString. lia. }
  unfold appendString. rewrite H3. cbn [bind].
  destruct (appendPrefixed_fits proto m3 (data_toBuffer key)) as (m4 & H4 & Hlen4 & Hcur4).
  { rewrite Hcur3, Hcur2, Hcur1, Hcur0, Hlen3, Hlen2, Hlen1, Hlen0.
    unfold calculateSize, calculateSizeString, calculateSizeData, totalSize, data_toBuffer.
    lia. }
  unfold appendData. unfold data_toBuffer in H4 at 1. unfold totalSize. rewrite H4. cbn [bind].
  destruct (setField_fits m4 FRAME_LENGTH_FIELD_OFFSET
              (encodeInt INT_SIZE_IN_BYTES (messageBigEndian proto)
                 (Z.of_nat (List.length (cm_buffer m4)))))
    as (m5 & H5 & Hlen5 & Hcur5).
  { rewrite encodeInt_length, Hlen4, Hlen3, Hlen2, Hlen1, Hlen0.
    unfold FRAME_LENGTH_FIELD_OFFSET, HEADER_SIZE, INT_SIZE_IN_BYTES. lia. }
  unfold updateFrameLength. rewrite H5. cbn [bind].
  exists m5. split; [reflexivity|]. split.
  - congruence.
  - rewrite Hcur5, Hcur4, Hcur3, Hcur2, Hcur1, Hcur0, Hlen5, Hlen4, Hlen3, Hlen2, Hlen1, Hlen0.
    unfold calculateSize, calculateSizeString, calculateSizeData, totalSize, data_toBuffer.
    lia.
Qed.

(** C6, counterexample.  For the name "map" and a 9-byte key under a
    15-byte header, the encoded message is 35 bytes long and
    [calculateSize] is 20: the two differ by the header, which
    [calculateSize] does not count. *)
Lemma encodeRequest_size_counterexample :
  exists m,
    encodeRequest Samples.protocol Samples.requestType "map" Samples.key = Ok m
    /\ List.length (cm_buffer m) = 35%nat
    /\ calculateSize "map" Samples.key = 20%nat
    /\ List.length (cm_buffer m) <> calculateSize "map" Samples.key
    /\ calculateSize "map" Samples.key
       <> (HEADER_SIZE Samples.protocol
           + (calculateSizeString "map" + calculateSizeData Samples.key))%nat.
Proof.
  eexists. split; [vm_compute; reflexivity|].
  split; [reflexivity|]. split; [reflexivity|]. split; vm_compute; discriminate.
Qed.

(** C10.  [decodeResponse] returns [{response: b}] with [b] the boolean
    read at the cursor of the message (the byte there compared with 1),
    and fails with the read's own error when the body holds no byte; the
    converter argument, absent or any function, does not enter the
    result: any two converters give the same answer. *)
Theorem decodeResponse_ignores_converter (m : ClientMessage)
    (toObjectFunction other : option (HeapData -> Result JSValue)) :
  decodeResponse m toObjectFunction =
    match nth_error (cm_buffer m) (cm_cursor m) with
    | Some byte =>
        Ok ({| response := JBool (byte =? 1) |},
            {| cm_buffer := cm_buffer m; cm_cursor := S (cm_cursor m) |})
    | None => Throw OutOfRange
    end
  /\ decodeResponse m toObjectFunction = decodeResponse m other.
Proof.
  split; [|reflexivity].
  unfold decodeResponse, cm_readBoolean.
  destruct (nth_error (cm_buffer m) (cm_cursor m)); reflexivity.
Qed.

(** The fifth scenario of the specification: a response whose body is
    the single byte 1 decodes to [{response: true}]. *)
Example decodeResponse_true :
  decodeResponse Samples.trueResponse None
  = Ok ({| response := JBool true |},
        {| cm_buffer := cm_buffer Samples.trueResponse;
           cm_cursor := S (cm_cursor Samples.trueResponse) |}).
Proof. reflexivity. Qed.

(* ===================================================================== *)
(** ** The tag of an envelope reads back *)
(* ===================================================================== *)

Lemma leValue_leBytes (w : nat) (z : Z) :
  leValue (leBytes w z) = z mod 2 ^ (8 * Z.of_nat w).
Proof.
  revert z. induction w as [|w IH]; intros z.
  - simpl. rewrite Z.mod_1_r. reflexivity.
  - cbn [leBytes leValue]. rewrite IH.
    replace (8 * Z.of_nat (S w)) with (8 + 8 * Z.of_nat w) by lia.
    rewrite Z.pow_add_r by lia.
    change (2 ^ 8) with 256.
    rewrite Z.rem_mul_r by lia.
    change 255 with (Z.ones 8). rewrite Z.land_ones by lia.
    rewrite Z.shiftr_div_pow2 by lia. reflexivity.
Qed.

Lemma decodeInt_encodeInt (bigEndian : bool) (z : Z) :
  - 2 ^ 31 <= z < 2 ^ 31 ->
  decodeInt bigEndian (encodeInt INT_SIZE_IN_BYTES bigEndian z) = z.
Proof.
  intros Hz. unfold decodeInt.
  rewrite encodeInt_length.
  assert (Hu : leValue (if bigEndian
                        then rev (encodeInt INT_SIZE_IN_BYTES bigEndian z)
                        else encodeInt INT_SIZE_IN_BYTES bigEndian z)
               = z mod 2 ^ 32).
  { unfold encodeInt. destruct bigEndian.
    - rewrite rev_involutive. apply leValue_leBytes.
    - apply leValue_leBytes. }
  rewrite Hu. change (2 ^ (8 * Z.of_nat INT_SIZE_IN_BYTES)) with (2 ^ 32).
  change (2 ^ 32 / 2) with (2 ^ 31).
  destruct (Z.ltb_spec (z mod 2 ^ 32) (2 ^ 31)) as [Hlt|Hge].
  - destruct (Z.lt_ge_cases z 0) as [Hneg|Hpos].
    + exfalso. replace z with (z + 2 ^ 32 - 1 * 2 ^ 32) in Hlt by lia.
      rewrite Zminus_mod, Z_mod_mult, Z.sub_0_r, Z.mod_mod in Hlt by lia.
      rewrite Z.mod_small in Hlt by lia. lia.
    + apply Z.mod_small. lia.
  - destruct (Z.lt_ge_cases z 0) as [Hneg|Hpos].
    + replace z with (z + 2 ^ 32 - 1 * 2 ^ 32) at 1 by lia.
      rewrite Zminus_mod, Z_mod_mult, Z.sub_0_r, Z.mod_mod by lia.
      rewrite Z.mod_small by lia. lia.
    + exfalso. rewrite Z.mod_small in Hge by lia. lia.
Qed.

Lemma slice_second_field (a b c : list octet) :
  List.length a = 4%nat -> List.length b = 4%nat ->
  slice TYPE_OFFSET INT_SIZE_IN_BYTES (a ++ b ++ c) = b.
Proof.
  intros Ha Hb.
  destruct a as [|a0 [|a1 [|a2 [|a3 [|a4 a]]]]]; try discriminate Ha.
  destruct b as [|b0 [|b1 [|b2 [|b3 [|b4 b]]]]]; try discriminate Hb.
  reflexivity.
Qed.

Lemma data_getType_envelope (hash tag : Z) (payload : list octet) :
  - 2 ^ 31 <= tag < 2 ^ 31 ->
  data_getType (mkHeapData (envelopeLayout true hash tag payload)) = Ok tag.
Proof.
  intros Htag. unfold data_getType, totalSize, envelopeLayout. cbn [heap_buffer].
  rewrite !length_app, !encodeInt_length.
  destruct (Nat.leb_spec (TYPE_OFFSET + INT_SIZE_IN_BYTES)
              (INT_SIZE_IN_BYTES + (INT_SIZE_IN_BYTES + List.length payload))) as [_|Hlt].
  - rewrite slice_second_field by apply encodeInt_length.
    rewrite decodeInt_encodeInt by exact Htag. reflexivity.
  - unfold TYPE_OFFSET, INT_SIZE_IN_BYTES in Hlt. lia.
Qed.

(** What [toData] writes, [toObject] hands to the reader of the same
    serializer: the tag is written and read big-endian on both sides. *)
Lemma toObject_after_toData (svc : Service) (v : JSValue)
    (strategy : option Strategy) (s : Serializer) (hash : Z)
    (out' : DataOutput) (payload : list octet) :
  let header :=
    encodeInt INT_SIZE_IN_BYTES true hash ++ encodeInt INT_SIZE_IN_BYTES true (getId s) in
  findSerializerFor svc v = Ok (RObj s) ->
  strategyOr strategy v = Ok hash ->
  write s {| out_buffer := header;
             out_bigEndian := isBigEndian (serialiationConfig svc) |} v = Ok out' ->
  out_buffer out' = header ++ payload ->
  registry svc !! getId s = Some s ->
  - 2 ^ 31 <= getId s < 2 ^ 31 ->
  exists data,
    toData svc v strategy = Ok data
    /\ toObject svc data =
       read s (newObjectDataInput (header ++ payload) DATA_OFFSET
                 (isBigEndian (serialiationConfig svc))).
Proof.
  intros header Hfind Hstrat Hwrite Hpayload Hbound Hrange.
  exists (mkHeapData (envelopeLayout true hash (getId s) payload)). split.
  - unfold toData. rewrite Hfind. cbn [bind].
    unfold toDataWith, calculatePartitionHash. rewrite Hstrat. cbn [bind deref].
    change (writeIntBE
              (writeIntBE (newObjectDataOutput (isBigEndian (serialiationConfig svc))) hash)
              (getId s))
      with {| out_buffer := header;
              out_bigEndian := isBigEndian (serialiationConfig svc) |}.
    rewrite Hwrite. cbn [bind].
    unfold toBuffer, envelopeLayout. rewrite Hpayload.
    unfold header. rewrite <- app_assoc. reflexivity.
  - unfold toObject. rewrite data_getType_envelope by exact Hrange. cbn [bind].
    unfold findSerializerById. rewrite Hbound. cbn [deref bind].
    unfold data_toBuffer, envelopeLayout, header. cbn [heap_buffer].
    rewrite <- app_assoc. reflexivity.
Qed.

(** The scenarios of the default-serializer test on the sample service:
    a boolean, an array of booleans and the empty array come back; null
    does not. *)
Example roundTrip_boolean :
  roundTrip (Samples.service Samples.bigEndianConfig) (JBool true) = Ok (JBool true).
Proof. reflexivity. Qed.

Example roundTrip_boolean_array :
  roundTrip (Samples.service Samples.littleEndianConfig)
    (JArray [JBool true; JBool false; JBool false; JBool true] [])
  = Ok (JArray [JBool true; JBool false; JBool false; JBool true] []).
Proof. reflexivity. Qed.

Example roundTrip_empty_array :
  roundTrip (Samples.service Samples.bigEndianConfig) (JArray [] []) = Ok (JArray [] []).
Proof. reflexivity. Qed.

Example roundTrip_mixed_array :
  roundTrip (Samples.service Samples.bigEndianConfig) Samples.mixedArray
  = Ok (JArray [JBool true; JBool true; JBool true] []).
Proof. reflexivity. Qed.

(* ===================================================================== *)
(** ** More on the registry *)
(* ===================================================================== *)

Lemma registerSerializer_cases (name : string) (serializer : Serializer) (svc : Service) :
  (registerSerializer name serializer svc = (registered name serializer svc, Ok tt)
   /\ nameGuard svc name = false
   /\ registry svc !! getId serializer = None)
  \/ (exists e, registerSerializer name serializer svc = (svc, Throw e)).
Proof.
  unfold registerSerializer, idGuard.
  destruct (nameGuard svc name); [right; eexists; reflexivity|].
  destruct (registry svc !! getId serializer) eqn:Hid.
  - right. eexists. reflexivity.
  - left. simpl. repeat split; reflexivity.
Qed.

Lemma wellFormed_emptyService (cfg : SerializationConfig) : wellFormed (emptyService cfg).
Proof.
  unfold wellFormed, emptyService. simpl. repeat split.
  - intros name id H. rewrite lookup_empty in H. discriminate H.
  - intros id s H. rewrite lookup_empty in H. discriminate H.
  - intros n1 n2 id H. rewrite lookup_empty in H. discriminate H.
Qed.

Lemma wellFormed_registered (name : string) (serializer : Serializer) (svc : Service) :
  wellFormed svc ->
  registry svc !! getId serializer = None ->
  wellFormed (registered name serializer svc).
Proof.
  intros (Hbound & Hkey & Hinj) Hfree. unfold wellFormed, registered. simpl.
  assert (Hfresh : forall n, serializerNameToId svc !! n <> Some (getId serializer)).
  { intros n Hn. destruct (Hbound n _ Hn) as [s Hs]. rewrite Hfree in Hs. discriminate Hs. }
  repeat split.
  - intros n id Hn. destruct (decide (name = n)) as [->|Hne].
    + rewrite lookup_insert_eq in Hn. inversion Hn; subst.
      exists serializer. apply lookup_insert_eq.
    + rewrite lookup_insert_ne in Hn by exact Hne.
      destruct (Hbound n id Hn) as [s Hs]. exists s.
      rewrite lookup_insert_ne; [exact Hs|].
      intros Heq. subst id. rewrite Hfree in Hs. discriminate Hs.
  - intros id s Hs. destruct (decide (getId serializer = id)) as [Heq|Hne].
    + subst id. rewrite lookup_insert_eq in Hs. inversion Hs; subst. reflexivity.
    + rewrite lookup_insert_ne in Hs by exact Hne. exact (Hkey id s Hs).
  - intros n1 n2 id H1 H2.
    destruct (decide (name = n1)) as [E1|N1]; destruct (decide (name = n2)) as [E2|N2].
    + congruence.
    + subst n1. rewrite lookup_insert_eq in H1. inversion H1; subst.
      rewrite lookup_insert_ne in H2 by exact N2. exfalso. exact (Hfresh n2 H2).
    + subst n2. rewrite lookup_insert_eq in H2. inversion H2; subst.
      rewrite lookup_insert_ne in H1 by exact N1. exfalso. exact (Hfresh n1 H1).
    + rewrite lookup_insert_ne in H1 by exact N1.
      rewrite lookup_insert_ne in H2 by exact N2. exact (Hinj n1 n2 id H1 H2).
Qed.

Lemma wellFormed_registerSerializer (name : string) (serializer : Serializer)
    (svc : Service) :
  wellFormed svc -> wellFormed (fst (registerSerializer name serializer svc)).
Proof.
  intros Hwf.
  destruct (registerSerializer_cases name serializer svc) as [(Hreg & _ & Hfree)|[e Hreg]];
    rewrite Hreg; simpl.
  - apply wellFormed_registered; assumption.
  - exact Hwf.
Qed.

Lemma registerSerializer_keeps_tag (name : string) (serializer bound : Serializer)
    (svc : Service) (id : Z) :
  registry svc !! id = Some bound ->
  registry (fst (registerSerializer name serializer svc)) !! id = Some bound.
Proof.
  intros Hid.
  destruct (registerSerializer_cases name serializer svc) as [(Hreg & _ & Hfree)|[e Hreg]];
    rewrite Hreg; simpl; [|exact Hid].
  rewrite lookup_insert_ne; [exact Hid|].
  intros Heq. subst id. rewrite Hfree in Hid. discriminate Hid.
Qed.

Lemma registerAll_cons (name : string) (serializer : Serializer)
    (rest : list (string * Serializer)) (svc : Service) :
  registerAll ((name, serializer) :: rest) svc =
  match snd (registerSerializer name serializer svc) with
  | Ok _ => registerAll rest (fst (registerSerializer name serializer svc))
  | Throw e => (fst (registerSerializer name serializer svc), Throw e)
  end.
Proof.
  simpl. destruct (registerSerializer name serializer svc) as [svc' [u|e]]; reflexivity.
Qed.

Lemma registerAll_keeps_tag (entries : list (string * Serializer)) (svc : Service)
    (id : Z) (bound : Serializer) :
  registry svc !! id = Some bound ->
  registry (fst (registerAll entries svc)) !! id = Some bound.
Proof.
  revert svc. induction entries as [|[name serializer] rest IH]; intros svc Hid.
  - exact Hid.
  - rewrite registerAll_cons.
    pose proof (registerSerializer_keeps_tag name serializer bound svc id Hid) as Hstep.
    destruct (snd (registerSerializer name serializer svc)) as [u|e].
    + apply IH. exact Hstep.
    + exact Hstep.
Qed.

Lemma wellFormed_registerAll (entries : list (string * Serializer)) (svc : Service) :
  wellFormed svc -> wellFormed (fst (registerAll entries svc)).
Proof.
  revert svc. induction entries as [|[name serializer] rest IH]; intros svc Hwf.
  - exact Hwf.
  - rewrite registerAll_cons.
    pose proof (wellFormed_registerSerializer name serializer svc Hwf) as Hstep.
    destruct (snd (registerSerializer name serializer svc)) as [u|e].
    + apply IH. exact Hstep.
    + exact Hstep.
Qed.

(** X1.  Registration keeps the registry well formed, whether it returns
    or throws, one serializer or a sequence of them: afterwards every tag
    the name table reaches is still bound, every serializer sits under
    its own tag and no two names share a tag. *)
Theorem registration_keeps_wellFormed (svc : Service) :
  wellFormed svc ->
  (forall name serializer, wellFormed (fst (registerSerializer name serializer svc)))
  /\ (forall entries, wellFormed (fst (registerAll entries svc))).
Proof.
  intros Hwf. split.
  - intros name serializer. apply wellFormed_registerSerializer. exact Hwf.
  - intros entries. apply wellFormed_registerAll. exact Hwf.
Qed.

Lemma registration_keeps_wellFormed_witness :
  wellFormed (emptyService Samples.bigEndianConfig)
  /\ wellFormed (fst (registerSerializer "boolean" Samples.booleanSerializer
                       (emptyService Samples.bigEndianConfig))).
Proof.
  split; [apply wellFormed_emptyService|].
  destruct (registration_keeps_wellFormed (emptyService Samples.bigEndianConfig)
              (wellFormed_emptyService Samples.bigEndianConfig)) as (Hone & _).
  apply Hone.
Defined.

(** X2.  A tag, once bound, stays bound to the same serializer: no
    registration, single or in a sequence, successful or not, rebinds or
    removes an entry of the tag table. *)
Theorem tag_bindings_are_permanent (svc : Service) (id : Z) (bound : Serializer) :
  registry svc !! id = Some bound ->
  (forall name serializer,
     registry (fst (registerSerializer name serializer svc)) !! id = Some bound)
  /\ (forall entries, registry (fst (registerAll entries svc)) !! id = Some bound).
Proof.
  intros Hid. split.
  - intros name serializer. apply registerSerializer_keeps_tag. exact Hid.
  - intros entries. apply registerAll_keeps_tag. exact Hid.
Qed.

Lemma tag_bindings_are_permanent_witness :
  registry (Samples.service Samples.bigEndianConfig) !! (-4) = Some Samples.booleanSerializer
  /\ registry (fst (registerAll [("boolean", Samples.nullSerializer);
                                 ("other", Defaults.emptyPayloadSerializer (-4))]
                      (Samples.service Samples.bigEndianConfig))) !! (-4)
     = Some Samples.booleanSerializer.
Proof.
  split; [reflexivity|].
  destruct (tag_bindings_are_permanent (Samples.service Samples.bigEndianConfig) (-4)
              Samples.booleanSerializer eq_refl) as (_ & Hall).
  apply Hall.
Defined.


Lemma nameGuard_fresh (svc : Service) (name : string) :
  serializerNameToId svc !! name = None -> nameGuard svc name = false.
Proof. intros H. unfold nameGuard. rewrite H. reflexivity. Qed.

Lemma registerSerializer_other_name (name other : string) (serializer : Serializer)
    (svc : Service) :
  other <> name ->
  serializerNameToId (fst (registerSerializer name serializer svc)) !! other
  = serializerNameToId svc !! other.
Proof.
  intros Hne.
  destruct (registerSerializer_cases name serializer svc) as [(Hreg & _)|[e Hreg]];
    rewrite Hreg; simpl; [|reflexivity].
  apply lookup_insert_ne. congruence.
Qed.

Lemma registerAll_other_name (entries : list (string * Serializer)) (svc : Service)
    (other : string) :
  ~ In other (entryNames entries) ->
  serializerNameToId (fst (registerAll entries svc)) !! other
  = serializerNameToId svc !! other.
Proof.
  revert svc. induction entries as [|[name serializer] rest IH]; intros svc Hnot.
  - reflexivity.
  - rewrite registerAll_cons. simpl in Hnot.
    assert (Hne : other <> name) by (intros ->; apply Hnot; left; reflexivity).
    assert (Hrest : ~ In other (entryNames rest)) by (intros H; apply Hnot; right; exact H).
    pose proof (registerSerializer_other_name name other serializer svc Hne) as Hstep.
    destruct (snd (registerSerializer name serializer svc)) as [u|e].
    + rewrite IH by exact Hrest. exact Hstep.
    + exact Hstep.
Qed.

Lemma registerAll_free (entries : list (string * Serializer)) (svc : Service) :
  NoDup (entryNames entries) ->
  Forall (fun n => serializerNameToId svc !! n = None) (entryNames entries) ->
  tagsFree svc entries ->
  snd (registerAll entries svc) = Ok tt
  /\ (forall name serializer, In (name, serializer) entries ->
        serializerNameToId (fst (registerAll entries svc)) !! name = Some (getId serializer)
        /\ registry (fst (registerAll entries svc)) !! getId serializer = Some serializer).
Proof.
  revert svc. induction entries as [|[name serializer] rest IH];
    intros svc Hnames Hfresh (Hids & Hfree).
  - split; [reflexivity|]. intros n s [].
  - simpl in Hnames, Hfresh, Hids, Hfree.
    apply NoDup_cons in Hnames as (Hname_notin & Hnames).
    pose proof Hname_notin as Hname_notin_In. rewrite list_elem_of_In in Hname_notin_In.
    apply NoDup_cons in Hids as (Hid_notin & Hids).
    apply Forall_cons_iff in Hfresh as (Hname_none & Hfresh).
    apply Forall_cons_iff in Hfree as (Hid_none & Hfree).
    destruct (registerSerializer_fresh svc name serializer Hname_none Hid_none)
      as (Hreg & _ & _).
    rewrite registerAll_cons, Hreg. cbn [fst snd].
    destruct (IH (registered name serializer svc)) as (Hok & Hlook).
    + exact Hnames.
    + apply Forall_forall. intros n Hn. simpl.
      rewrite lookup_insert_ne.
      * rewrite Forall_forall in Hfresh. apply Hfresh. exact Hn.
      * intros ->. exact (Hname_notin Hn).
    + split; [exact Hids|]. apply Forall_forall. intros i Hi. simpl.
      rewrite lookup_insert_ne.
      * rewrite Forall_forall in Hfree. apply Hfree. exact Hi.
      * intros Heq. rewrite Heq in Hid_notin. exact (Hid_notin Hi).
    + split; [exact Hok|]. intros n s [Hhead|Htail].
      * inversion Hhead; subst n s. split.
        -- rewrite registerAll_other_name by exact Hname_notin_In. simpl.
           apply lookup_insert_eq.
        -- apply registerAll_keeps_tag. simpl. apply lookup_insert_eq.
      * exact (Hlook n s Htail).
Qed.

Lemma registerAll_clash (entries : list (string * Serializer)) (svc : Service) :
  NoDup (entryNames entries) ->
  Forall (fun n => serializerNameToId svc !! n = None) (entryNames entries) ->
  ~ tagsFree svc entries ->
  snd (registerAll entries svc) = Throw (RangeError ID_IN_REGISTRY).
Proof.
  revert svc. induction entries as [|[name serializer] rest IH];
    intros svc Hnames Hfresh Hclash.
  - exfalso. apply Hclash. split; constructor.
  - simpl in Hnames, Hfresh.
    apply NoDup_cons in Hnames as (Hname_notin & Hnames).
    pose proof Hname_notin as Hname_notin_In. rewrite list_elem_of_In in Hname_notin_In.
    apply Forall_cons_iff in Hfresh as (Hname_none & Hfresh).
    rewrite registerAll_cons.
    destruct (registry svc !! getId serializer) as [bound|] eqn:Hid.
    + rewrite (registerSerializer_duplicate_tag svc name serializer bound
                 (nameGuard_fresh svc name Hname_none) Hid).
      reflexivity.
    + destruct (registerSerializer_fresh svc name serializer Hname_none Hid)
        as (Hreg & _ & _).
      rewrite Hreg. cbn [fst snd]. apply IH.
      * exact Hnames.
      * apply Forall_forall. intros n Hn. simpl.
        rewrite lookup_insert_ne.
        -- rewrite Forall_forall in Hfresh. apply Hfresh. exact Hn.
        -- intros ->. exact (Hname_notin Hn).
      * intros (Hids & Hfree). apply Hclash.
        rewrite Forall_forall in Hfree. simpl in Hfree.
        split.
        -- simpl. apply NoDup_cons. split; [|exact Hids].
           intros Hin. specialize (Hfree _ Hin).
           rewrite lookup_insert_eq in Hfree. discriminate Hfree.
        -- simpl. apply Forall_cons_iff. split; [exact Hid|].
           apply Forall_forall. intros i Hi. specialize (Hfree _ Hi).
           apply lookup_insert_None in Hfree. tauto.
Qed.




Lemma append_empty (str : string) : String.append str EmptyString = str.
Proof.
  induction str as [|a str IH]; [reflexivity|].
  change (String a (String.append str EmptyString) = String a str).
  f_equal. exact IH.
Qed.

Lemma findSerializerByName_bound (svc : Service) (name : string) (isArray : bool)
    (id : Z) (s : Serializer) :
  serializerNameToId svc !! String.append name (if isArray then "Array" else "") = Some id ->
  registry svc !! id = Some s ->
  findSerializerByName svc name isArray = RObj s.
Proof.
  intros Hname Hid. unfold findSerializerByName, findSerializerById.
  rewrite Hname, Hid. reflexivity.
Qed.

Lemma findSerializerByName_RObj (svc : Service) (name : string) (isArray : bool)
    (s : Serializer) :
  findSerializerByName svc name isArray = RObj s ->
  exists id,
    serializerNameToId svc !! String.append name (if isArray then "Array" else "") = Some id
    /\ registry svc !! id = Some s.
Proof.
  unfold findSerializerByName, findSerializerById. intros H.
  destruct (serializerNameToId svc !! _) as [id|]; [|discriminate H].
  exists id. split; [reflexivity|].
  destruct (registry svc !! id) as [s'|]; [|discriminate H].
  inversion H; subst. reflexivity.
Qed.

(** X4.  After a registration that returns, the serializer is found both
    under its name and under its tag, and every other name resolves to
    the serializer it resolved to before. *)
Theorem registerSerializer_lookup (svc : Service) (name : string) (serializer : Serializer) :
  snd (registerSerializer name serializer svc) = Ok tt ->
  let svc' := fst (registerSerializer name serializer svc) in
  findSerializerByName svc' name false = RObj serializer
  /\ findSerializerById svc' (getId serializer) = RObj serializer
  /\ (forall (other : string) (isArray : bool) (s : Serializer),
        String.append other (if isArray then "Array" else "") <> name ->
        findSerializerByName svc other isArray = RObj s ->
        findSerializerByName svc' other isArray = RObj s).
Proof.
  intros Hok svc'. unfold svc'.
  destruct (registerSerializer_cases name serializer svc) as [(Hreg & _ & Hfree)|[e Hreg]];
    [|rewrite Hreg in Hok; discriminate Hok].
  rewrite Hreg. cbn [fst]. split; [|split].
  - apply (findSerializerByName_bound _ name false (getId serializer)).
    + cbn [registered serializerNameToId]. rewrite append_empty. apply lookup_insert_eq.
    + apply lookup_insert_eq.
  - unfold findSerializerById. cbn [registered registry].
    rewrite lookup_insert_eq. reflexivity.
  - intros other isArray s Hne Hfound.
    destruct (findSerializerByName_RObj svc other isArray s Hfound) as (id & Hname & Hid).
    apply (findSerializerByName_bound _ other isArray id).
    + cbn [registered serializerNameToId]. rewrite lookup_insert_ne by congruence. exact Hname.
    + cbn [registered registry]. rewrite lookup_insert_ne; [exact Hid|].
      intros Heq. subst id. rewrite Hfree in Hid. discriminate Hid.
Qed.

Lemma registerSerializer_lookup_witness :
  snd (registerSerializer "short" (Defaults.emptyPayloadSerializer (-6))
         (Samples.service Samples.bigEndianConfig)) = Ok tt
  /\ findSerializerByName
       (fst (registerSerializer "short" (Defaults.emptyPayloadSerializer (-6))
               (Samples.service Samples.bigEndianConfig))) "boolean" true
     = RObj Samples.booleanArraySerializer.
Proof.
  split; [reflexivity|].
  destruct (registerSerializer_lookup (Samples.service Samples.bigEndianConfig) "short"
              (Defaults.emptyPayloadSerializer (-6)) eq_refl) as (_ & _ & Hframe).
  apply Hframe; [discriminate | reflexivity].
Defined.

Lemma defaultEntries_names (ds : DefaultSerializers) (cfg : SerializationConfig) :
  NoDup (entryNames (defaultEntries ds cfg)).
Proof. apply (bool_decide_unpack _). vm_compute. exact I. Qed.

Lemma emptyService_fresh (cfg : SerializationConfig) (names : list string) :
  Forall (fun n => serializerNameToId (emptyService cfg) !! n = None) names.
Proof. apply Forall_forall. intros n _. apply lookup_empty. Qed.

Lemma emptyService_tagsFree (cfg : SerializationConfig)
    (entries : list (string * Serializer)) :
  NoDup (entryIds entries) <-> tagsFree (emptyService cfg) entries.
Proof.
  split.
  - intros H. split; [exact H|]. apply Forall_forall. intros i _. apply lookup_empty.
  - intros (H & _). exact H.
Qed.

Lemma constructor_unfold (ds : DefaultSerializers) (cfg : SerializationConfig) :
  newSerializationServiceV1 ds cfg =
  match snd (registerAll (defaultEntries ds cfg) (emptyService cfg)) with
  | Ok _ => Ok (fst (registerAll (defaultEntries ds cfg) (emptyService cfg)))
  | Throw e => Throw e
  end.
Proof.
  unfold newSerializationServiceV1, registerDefaultSerializers.
  change (serialiationConfig (emptyService cfg)) with cfg.
  destruct (registerAll (defaultEntries ds cfg) (emptyService cfg)) as [svc [u|e]];
    reflexivity.
Qed.

(** X5.  The constructor returns a service exactly when the fifteen
    default serializers have pairwise distinct tags; when two of them
    share a tag it throws the duplicate-id RangeError. *)
Theorem constructor_succeeds_iff_tags_distinct (ds : DefaultSerializers)
    (cfg : SerializationConfig) :
  ((exists svc, newSerializationServiceV1 ds cfg = Ok svc)
   <-> NoDup (entryIds (defaultEntries ds cfg)))
  /\ (~ NoDup (entryIds (defaultEntries ds cfg)) ->
      newSerializationServiceV1 ds cfg = Throw (RangeError ID_IN_REGISTRY)).
Proof.
  assert (Hclash : ~ NoDup (entryIds (defaultEntries ds cfg)) ->
                   newSerializationServiceV1 ds cfg = Throw (RangeError ID_IN_REGISTRY)).
  { intros Hdup. rewrite constructor_unfold.
    rewrite (registerAll_clash (defaultEntries ds cfg) (emptyService cfg)
               (defaultEntries_names ds cfg) (emptyService_fresh cfg _)).
    - reflexivity.
    - intros Hfree. apply Hdup. apply (emptyService_tagsFree cfg). exact Hfree. }
  split; [|exact Hclash]. split.
  - intros [svc Hok].
    destruct (decide (NoDup (entryIds (defaultEntries ds cfg)))) as [Hnodup|Hdup];
      [exact Hnodup|].
    rewrite (Hclash Hdup) in Hok. discriminate Hok.
  - intros Hnodup. rewrite constructor_unfold.
    destruct (registerAll_free (defaultEntries ds cfg) (emptyService cfg)
                (defaultEntries_names ds cfg) (emptyService_fresh cfg _)
                (proj1 (emptyService_tagsFree cfg _) Hnodup)) as (Hok & _).
    rewrite Hok. eexists. reflexivity.
Qed.

Example constructor_with_distinct_tags :
  exists svc, newSerializationServiceV1 Defaults.serializers Samples.bigEndianConfig = Ok svc.
Proof. eexists. vm_compute. reflexivity. Qed.

Example constructor_with_clashing_tags :
  newSerializationServiceV1 Defaults.clashing Samples.bigEndianConfig
  = Throw (RangeError ID_IN_REGISTRY).
Proof. reflexivity. Qed.

Lemma constructor_Ok (ds : DefaultSerializers) (cfg : SerializationConfig) (svc : Service) :
  newSerializationServiceV1 ds cfg = Ok svc ->
  svc = fst (registerAll (defaultEntries ds cfg) (emptyService cfg))
  /\ tagsFree (emptyService cfg) (defaultEntries ds cfg).
Proof.
  intros Hok.
  destruct (decide (NoDup (entryIds (defaultEntries ds cfg)))) as [Hnodup|Hdup].
  - split; [|apply emptyService_tagsFree; exact Hnodup].
    rewrite constructor_unfold in Hok.
    destruct (snd (registerAll (defaultEntries ds cfg) (emptyService cfg)));
      inversion Hok; reflexivity.
  - exfalso. rewrite constructor_unfold in Hok.
    rewrite (registerAll_clash (defaultEntries ds cfg) (emptyService cfg)
               (defaultEntries_names ds cfg) (emptyService_fresh cfg _)) in Hok.
    + discriminate Hok.
    + intros Hfree. apply Hdup. apply (emptyService_tagsFree cfg). exact Hfree.
Qed.

Lemma constructor_resolves (ds : DefaultSerializers) (cfg : SerializationConfig)
    (svc : Service) (name : string) (s : Serializer) :
  newSerializationServiceV1 ds cfg = Ok svc ->
  In (name, s) (defaultEntries ds cfg) ->
  serializerNameToId svc !! name = Some (getId s) /\ registry svc !! getId s = Some s.
Proof.
  intros Hok Hin. destruct (constructor_Ok ds cfg svc Hok) as (-> & Hfree).
  destruct (registerAll_free (defaultEntries ds cfg) (emptyService cfg)
              (defaultEntries_names ds cfg) (emptyService_fresh cfg _) Hfree) as (_ & Hlook).
  exact (Hlook name s Hin).
Qed.

Lemma constructor_unregistered (ds : DefaultSerializers) (cfg : SerializationConfig)
    (svc : Service) (name : string) :
  newSerializationServiceV1 ds cfg = Ok svc ->
  ~ In name (entryNames (defaultEntries ds cfg)) ->
  serializerNameToId svc !! name = None.
Proof.
  intros Hok Hnot. destruct (constructor_Ok ds cfg svc Hok) as (-> & _).
  rewrite registerAll_other_name by exact Hnot. apply lookup_empty.
Qed.

Lemma registerAll_config (entries : list (string * Serializer)) (svc : Service) :
  serialiationConfig (fst (registerAll entries svc)) = serialiationConfig svc.
Proof.
  revert svc. induction entries as [|[name serializer] rest IH]; intros svc.
  - reflexivity.
  - rewrite registerAll_cons.
    assert (Hstep : serialiationConfig (fst (registerSerializer name serializer svc))
                    = serialiationConfig svc).
    { destruct (registerSerializer_cases name serializer svc) as [(Hreg & _)|[e Hreg]];
        rewrite Hreg; reflexivity. }
    destruct (snd (registerSerializer name serializer svc)) as [u|e].
    + rewrite IH. exact Hstep.
    + exact Hstep.
Qed.

(** X6.  A constructed service is well formed, carries the configuration
    it was given, and each of the fifteen default names resolves to the
    serializer the constructor registered under it, by name and by tag. *)
Theorem constructed_service_resolves (ds : DefaultSerializers)
    (cfg : SerializationConfig) (svc : Service) :
  newSerializationServiceV1 ds cfg = Ok svc ->
  wellFormed svc
  /\ serialiationConfig svc = cfg
  /\ forall name s, In (name, s) (defaultEntries ds cfg) ->
       findSerializerByName svc name false = RObj s
       /\ findSerializerById svc (getId s) = RObj s.
Proof.
  intros Hok. split; [|split].
  - destruct (constructor_Ok ds cfg svc Hok) as (-> & _).
    apply wellFormed_registerAll. apply wellFormed_emptyService.
  - destruct (constructor_Ok ds cfg svc Hok) as (-> & _).
    apply registerAll_config.
  - intros name s Hin.
    destruct (constructor_resolves ds cfg svc name s Hok Hin) as (Hname & Hid).
    split.
    + apply (findSerializerByName_bound _ name false (getId s)); [|exact Hid].
      rewrite append_empty. exact Hname.
    + unfold findSerializerById. rewrite Hid. reflexivity.
Qed.

Lemma constructed_service_resolves_witness :
  newSerializationServiceV1 Defaults.serializers Samples.littleEndianConfig
  = Ok (fst (registerDefaultSerializers Defaults.serializers
               (emptyService Samples.littleEndianConfig)))
  /\ findSerializerByName
       (fst (registerDefaultSerializers Defaults.serializers
               (emptyService Samples.littleEndianConfig))) "numberArray" false
     = RObj Samples.numberArraySerializer.
Proof.
  split; [reflexivity|].
  destruct (constructed_service_resolves Defaults.serializers Samples.littleEndianConfig
              (fst (registerDefaultSerializers Defaults.serializers
                      (emptyService Samples.littleEndianConfig))) eq_refl)
    as (_ & _ & Hall).
  apply (Hall "numberArray" Samples.numberArraySerializer).
  simpl. tauto.
Defined.


(* ===================================================================== *)
(** ** More on the resolution of serializers *)
(* ===================================================================== *)

Lemma constructor_byName (ds : DefaultSerializers) (cfg : SerializationConfig)
    (svc : Service) (name : string) (isArray : bool) (s : Serializer) :
  newSerializationServiceV1 ds cfg = Ok svc ->
  In (String.append name (if isArray then "Array" else ""), s) (defaultEntries ds cfg) ->
  findSerializerByName svc name isArray = RObj s.
Proof.
  intros Hok Hin.
  destruct (constructor_resolves ds cfg svc _ s Hok Hin) as (Hname & Hid).
  exact (findSerializerByName_bound svc name isArray (getId s) s Hname Hid).
Qed.

Lemma isIdentified_members (v : JSValue) :
  v <> JUndefined -> v <> JNull ->
  isIdentifiedDataSerializable v =
  Ok (hasTruthyMember v "readData" && hasTruthyMember v "writeData"
      && hasTruthyMember v "getClassId" && hasTruthyMember v "getFactoryId").
Proof.
  intros Hu Hn. unfold isIdentifiedDataSerializable, hasTruthyMember.
  destruct v as [| |b|n|s|ret|elems props|props]; try contradiction; try reflexivity;
    cbn [getProp bind String.eqb Ascii.eqb Bool.eqb];
    destruct (truthy (lookupProp "readData" props)); cbn [negb andb]; try reflexivity;
    destruct (truthy (lookupProp "writeData" props)); cbn [negb andb]; try reflexivity;
    destruct (truthy (lookupProp "getClassId" props)); cbn [negb andb]; reflexivity.
Qed.



(** X8.  [findSerializerFor] throws for undefined (the RangeError of the
    source) and for null (the TypeError of the member read), and for no
    other value: a value without a serializer makes it return null, not
    throw. *)
Theorem findSerializerFor_throws_iff (svc : Service) (v : JSValue) :
  ((exists e, findSerializerFor svc v = Throw e) <-> (v = JUndefined \/ v = JNull))
  /\ findSerializerFor svc JUndefined = Throw (RangeError UNDEFINED_NOT_SERIALIZABLE)
  /\ findSerializerFor svc JNull = Throw (TypeErrorRead "readData" OfNull).
Proof.
  split; [|split; reflexivity]. split.
  - intros [e He].
    destruct v as [| |b|n|s|ret|elems props|props];
      [left; reflexivity | right; reflexivity | exfalso ..];
      unfold findSerializerFor in He;
      rewrite isIdentified_members in He by discriminate; cbn [bind] in He;
      destruct (_ && _) in He; try discriminate He;
      cbn in He; repeat (destruct (_ =? _)%nat in He); discriminate He.
  - intros [->| ->]; eexists; reflexivity.
Qed.

(** X9.  In a constructed service a boolean, a number and a string
    resolve to the boolean, double and string serializers; a plain array
    resolves by its first element to the boolean-array, double-array or
    string-array serializer and the empty array to the double-array
    serializer; a value with the four identified methods resolves to the
    identified serializer; an object without them, and an array that
    starts with null, resolve to no serializer. *)
Theorem default_dispatch (ds : DefaultSerializers) (cfg : SerializationConfig)
    (svc : Service) :
  newSerializationServiceV1 ds cfg = Ok svc ->
  (forall b, findSerializerFor svc (JBool b) = Ok (RObj (BooleanSerializer ds)))
  /\ (forall n, findSerializerFor svc (JNumber n) = Ok (RObj (DoubleSerializer ds)))
  /\ (forall str, findSerializerFor svc (JString str) = Ok (RObj (StringSerializer ds)))
  /\ findSerializerFor svc (JArray [] []) = Ok (RObj (DoubleArraySerializer ds))
  /\ (forall b rest,
        findSerializerFor svc (JArray (JBool b :: rest) [])
        = Ok (RObj (BooleanArraySerializer ds)))
  /\ (forall n rest,
        findSerializerFor svc (JArray (JNumber n :: rest) [])
        = Ok (RObj (DoubleArraySerializer ds)))
  /\ (forall str rest,
        findSerializerFor svc (JArray (JString str :: rest) [])
        = Ok (RObj (StringArraySerializer ds)))
  /\ (forall v, exposesIdentified v ->
        findSerializerFor svc v
        = Ok (RObj (IdentifiedDataSerializableSerializer ds (dataSerializableFactories cfg))))
  /\ (forall props, isIdentifiedDataSerializable (JObject props) = Ok false ->
        findSerializerFor svc (JObject props) = Ok RNull)
  /\ (forall rest, findSerializerFor svc (JArray (JNull :: rest) []) = Ok RNull).
Proof.
  intros Hok.
  assert (Hby : forall (name : string) (isArray : bool) (s : Serializer),
             In (String.append name (if isArray then "Array" else ""), s)
                (defaultEntries ds cfg) ->
             findSerializerByName svc name isArray = RObj s).
  { intros name isArray s. apply constructor_byName. exact Hok. }
  assert (Hno : forall (name : string) (isArray : bool),
             ~ In (String.append name (if isArray then "Array" else ""))
                  (entryNames (defaultEntries ds cfg)) ->
             findSerializerByName svc name isArray = RNull).
  { intros name isArray Hnot. apply findSerializerByName_unregistered.
    apply (constructor_unregistered ds cfg svc _ Hok Hnot). }
  repeat split.
  - intros b. change (findSerializerFor svc (JBool b))
      with (Ok (findSerializerByName svc "boolean" false)).
    rewrite (Hby "boolean" false (BooleanSerializer ds)); [reflexivity|]. simpl. tauto.
  - intros n. change (findSerializerFor svc (JNumber n))
      with (Ok (findSerializerByName svc "number" false)).
    rewrite (Hby "number" false (DoubleSerializer ds)); [reflexivity|]. simpl. tauto.
  - intros str. change (findSerializerFor svc (JString str))
      with (Ok (findSerializerByName svc "string" false)).
    rewrite (Hby "string" false (StringSerializer ds)); [reflexivity|]. simpl. tauto.
  - change (findSerializerFor svc (JArray [] []))
      with (Ok (findSerializerByName svc "number" true)).
    rewrite (Hby "number" true (DoubleArraySerializer ds)); [reflexivity|]. simpl. tauto.
  - intros b rest. change (findSerializerFor svc (JArray (JBool b :: rest) []))
      with (Ok (findSerializerByName svc "boolean" true)).
    rewrite (Hby "boolean" true (BooleanArraySerializer ds)); [reflexivity|]. simpl. tauto.
  - intros n rest. change (findSerializerFor svc (JArray (JNumber n :: rest) []))
      with (Ok (findSerializerByName svc "number" true)).
    rewrite (Hby "number" true (DoubleArraySerializer ds)); [reflexivity|]. simpl. tauto.
  - intros str rest. change (findSerializerFor svc (JArray (JString str :: rest) []))
      with (Ok (findSerializerByName svc "string" true)).
    rewrite (Hby "string" true (StringArraySerializer ds)); [reflexivity|]. simpl. tauto.
  - intros v Hexp.
    assert (Hdef : v <> JUndefined).
    { intros ->. destruct Hexp as ([ret H] & _). discriminate H. }
    rewrite (findSerializerFor_identified svc v (isIdentified_exposes v Hexp) Hdef).
    rewrite (Hby "identified" false
               (IdentifiedDataSerializableSerializer ds (dataSerializableFactories cfg)));
      [reflexivity|]. simpl. tauto.
  - intros props Hid. unfold findSerializerFor. rewrite Hid. cbn [bind].
    change (getType (JObject props)) with "object". cbn [String.eqb Ascii.eqb Bool.eqb].
    rewrite (Hno "object" false); [reflexivity|].
    simpl. intuition discriminate.
  - intros rest. change (findSerializerFor svc (JArray (JNull :: rest) []))
      with (Ok (findSerializerByName svc "null" true)).
    rewrite (Hno "null" true); [reflexivity|].
    simpl. intuition discriminate.
Qed.

Lemma default_dispatch_witness :
  findSerializerFor
    (fst (registerDefaultSerializers Defaults.serializers
            (emptyService Samples.bigEndianConfig)))
    (JArray [JBool false; JNumber 3] [])
  = Ok (RObj Samples.booleanArraySerializer).
Proof.
  destruct (default_dispatch Defaults.serializers Samples.bigEndianConfig
              (fst (registerDefaultSerializers Defaults.serializers
                      (emptyService Samples.bigEndianConfig))) eq_refl)
    as (_ & _ & _ & _ & Hbools & _).
  apply Hbools.
Defined.


(* ===================================================================== *)
(** ** Round trips of the engine *)
(* ===================================================================== *)

Lemma findSerializerFor_byName (svc : Service) (v : JSValue) (r : Ref Serializer) :
  findSerializerFor svc v = Ok r ->
  exists name isArray, r = findSerializerByName svc name isArray.
Proof.
  unfold findSerializerFor. intros H.
  destruct v as [| |b|n|s|ret|elems props|props]; try discriminate H;
    destruct (isIdentifiedDataSerializable _) as [[|]|e] in H; try discriminate H;
    cbn in H; repeat (destruct (_ =? _)%nat in H);
    inversion H; eexists; eexists; reflexivity.
Qed.

Lemma findSerializerFor_registered (svc : Service) (v : JSValue) (s : Serializer) :
  wellFormed svc ->
  findSerializerFor svc v = Ok (RObj s) ->
  registry svc !! getId s = Some s.
Proof.
  intros (_ & Hkey & _) Hfind.
  destruct (findSerializerFor_byName svc v _ Hfind) as (name & isArray & Hr).
  symmetry in Hr.
  destruct (findSerializerByName_RObj svc name isArray s Hr) as (id & _ & Hid).
  rewrite (Hkey id s Hid). exact Hid.
Qed.

(** X10.  In a well-formed service, when [toData] resolves a serializer
    whose tag fits 32 bits and whose writer appends a payload, the
    envelope goes back through [toObject] to the reader of the same
    serializer, positioned at the payload; so when that reader returns
    the value written, [toObject(toData(v))] is [v]. *)
Theorem envelope_round_trip (svc : Service) (v : JSValue)
    (strategy : option Strategy) (s : Serializer) (hash : Z)
    (out' : DataOutput) (payload : list octet) :
  let header :=
    encodeInt INT_SIZE_IN_BYTES true hash ++ encodeInt INT_SIZE_IN_BYTES true (getId s) in
  wellFormed svc ->
  findSerializerFor svc v = Ok (RObj s) ->
  strategyOr strategy v = Ok hash ->
  write s {| out_buffer := header;
             out_bigEndian := isBigEndian (serialiationConfig svc) |} v = Ok out' ->
  out_buffer out' = header ++ payload ->
  - 2 ^ 31 <= getId s < 2 ^ 31 ->
  read s (newObjectDataInput (header ++ payload) DATA_OFFSET
            (isBigEndian (serialiationConfig svc))) = Ok v ->
  exists data, toData svc v strategy = Ok data /\ toObject svc data = Ok v.
Proof.
  intros header Hwf Hfind Hstrat Hwrite Hpayload Hrange Hread.
  destruct (toObject_after_toData svc v strategy s hash out' payload
              Hfind Hstrat Hwrite Hpayload
              (findSerializerFor_registered svc v s Hwf Hfind) Hrange)
    as (data & Hdata & Hobject).
  exists data. split; [exact Hdata|].
  rewrite Hobject. exact Hread.
Qed.

Lemma wellFormed_sample_service (cfg : SerializationConfig) :
  wellFormed (Samples.service cfg).
Proof.
  unfold Samples.service. apply wellFormed_registerAll. apply wellFormed_emptyService.
Qed.

Lemma envelope_round_trip_witness :
  exists data,
    toData (Samples.service Samples.littleEndianConfig)
      (JArray [JBool true; JBool false] []) None = Ok data
    /\ toObject (Samples.service Samples.littleEndianConfig) data
       = Ok (JArray [JBool true; JBool false] []).
Proof.
  apply (envelope_round_trip (Samples.service Samples.littleEndianConfig)
           (JArray [JBool true; JBool false] []) None Samples.booleanArraySerializer 0
           {| out_buffer := [0; 0; 0; 0; 255; 255; 255; 243; 2; 0; 0; 0; 1; 0];
              out_bigEndian := false |}
           [2; 0; 0; 0; 1; 0]).
  - apply wellFormed_sample_service.
  - reflexivity.
  - reflexivity.
  - reflexivity.
  - reflexivity.
  - vm_compute. split; [intro H; discriminate H | reflexivity].
  - reflexivity.
Defined.

Lemma slice_after (a b c : list octet) :
  slice (List.length a) (List.length b) (a ++ b ++ c) = b.
Proof. unfold slice. rewrite drop_app_length. apply take_app_length. Qed.

(** X11.  In a well-formed service, what [writeObject] appends to a
    stream, the tag in the stream's byte order and then the payload,
    [readObject] reads back from the position where the write began: it
    finds the same serializer and hands it the stream positioned right
    after the tag. *)
Theorem nested_round_trip (svc : Service) (out : DataOutput) (v : JSValue)
    (s : Serializer) (out' : DataOutput) (payload : list octet) :
  wellFormed svc ->
  findSerializerFor svc v = Ok (RObj s) ->
  write s (writeInt out (getId s)) v = Ok out' ->
  out_buffer out' = out_buffer (writeInt out (getId s)) ++ payload ->
  - 2 ^ 31 <= getId s < 2 ^ 31 ->
  writeObject svc out v = Ok out'
  /\ readObject svc
       (newObjectDataInput (out_buffer out') (List.length (out_buffer out))
          (out_bigEndian out))
     = read s (newObjectDataInput (out_buffer out')
                 (List.length (out_buffer out) + INT_SIZE_IN_BYTES)
                 (out_bigEndian out)).
Proof.
  intros Hwf Hfind Hwrite Hpayload Hrange. split.
  - unfold writeObject. rewrite Hfind. cbn [bind deref]. exact Hwrite.
  - pose proof (findSerializerFor_registered svc v s Hwf Hfind) as Hbound.
    assert (Hbuf : out_buffer out' =
                   out_buffer out
                   ++ encodeInt INT_SIZE_IN_BYTES (out_bigEndian out) (getId s) ++ payload).
    { rewrite Hpayload. unfold writeInt, writeBytes. cbn [out_buffer].
      rewrite <- app_assoc. reflexivity. }
    unfold readObject, readInt, readBytes, newObjectDataInput.
    cbn [in_buffer in_pos in_bigEndian].
    assert (Hlen : (List.length (out_buffer out) + INT_SIZE_IN_BYTES
                    <= List.length (out_buffer out'))%nat).
    { rewrite Hbuf, !length_app, encodeInt_length. lia. }
    destruct (Nat.leb_spec (List.length (out_buffer out) + INT_SIZE_IN_BYTES)
                (List.length (out_buffer out'))) as [_|Hlt]; [|lia].
    cbn [bind].
    assert (Hslice : slice (List.length (out_buffer out)) INT_SIZE_IN_BYTES (out_buffer out')
                     = encodeInt INT_SIZE_IN_BYTES (out_bigEndian out) (getId s)).
    { rewrite Hbuf.
      rewrite <- (encodeInt_length INT_SIZE_IN_BYTES (out_bigEndian out) (getId s)) at 1.
      apply slice_after. }
    rewrite Hslice, decodeInt_encodeInt by exact Hrange.
    unfold findSerializerById. rewrite Hbound. reflexivity.
Qed.

Lemma nested_round_trip_witness :
  readObject (Samples.service Samples.littleEndianConfig)
    (newObjectDataInput [9; 9; 252; 255; 255; 255; 1] 2 false)
  = Ok (JBool true).
Proof.
  destruct (nested_round_trip (Samples.service Samples.littleEndianConfig)
              {| out_buffer := [9; 9]; out_bigEndian := false |}
              (JBool true) Samples.booleanSerializer
              {| out_buffer := [9; 9; 252; 255; 255; 255; 1]; out_bigEndian := false |}
              [1]) as (_ & Hread).
  - apply wellFormed_sample_service.
  - reflexivity.
  - reflexivity.
  - reflexivity.
  - vm_compute. split; [intro H; discriminate H | reflexivity].
  - refine (eq_trans Hread _). reflexivity.
Defined.

(** X12.  [defaultPartitionStrategy] returns 0 for every value without a
    truthy getPartitionHash member, null and undefined included; it
    returns what the method returns when the member is a function; and
    it fails, with the TypeError of calling a non-function, only when the
    member is truthy and not a function. *)
Theorem defaultPartitionStrategy_cases (v : JSValue) :
  (hasTruthyMember v "getPartitionHash" = false -> defaultPartitionStrategy v = Ok 0)
  /\ (forall h, getProp v "getPartitionHash" = Ok (JFunction h) ->
        defaultPartitionStrategy v = Ok h)
  /\ (forall m, getProp v "getPartitionHash" = Ok m -> truthy m = true ->
        (forall h, m <> JFunction h) ->
        defaultPartitionStrategy v = Throw (TypeErrorNotAFunction "getPartitionHash")).
Proof.
  unfold defaultPartitionStrategy, hasTruthyMember. repeat split.
  - intros Hfalse. destruct v; try reflexivity;
      cbn in Hfalse; cbn; rewrite Hfalse; reflexivity.
  - intros h Hm. destruct v; try discriminate Hm; rewrite Hm; reflexivity.
  - intros m Hm Htruthy Hnot.
    destruct v; try discriminate Hm; rewrite Hm; cbn [bind]; rewrite Htruthy;
      cbn [negb]; destruct m; try reflexivity; exfalso; eapply Hnot; reflexivity.
Qed.

Example defaultPartitionStrategy_values :
  defaultPartitionStrategy JNull = Ok 0
  /\ defaultPartitionStrategy (JObject [("getPartitionHash", JFunction 42)]) = Ok 42
  /\ defaultPartitionStrategy (JObject [("getPartitionHash", JNumber 42)])
     = Throw (TypeErrorNotAFunction "getPartitionHash").
Proof. repeat split. Qed.


(* ===================================================================== *)
(** ** The bytes of a request and of a JSON envelope *)
(* ===================================================================== *)

Lemma writeAt_segment (buffer pre old post new : list octet) (pos : nat) :
  buffer = pre ++ old ++ post ->
  pos = List.length pre ->
  List.length new = List.length old ->
  writeAt buffer pos new = Ok (pre ++ new ++ post).
Proof.
  intros -> -> Hlen. unfold writeAt.
  destruct (Nat.leb_spec (List.length pre + List.length new)
              (List.length (pre ++ old ++ post))) as [_|Hlt].
  - rewrite take_app_length.
    rewrite <- drop_drop, drop_app_length, Hlen, drop_app_length. reflexivity.
  - rewrite !length_app in Hlt. lia.
Qed.



Lemma ascii_round_trip (a : ascii) : ascii_of_N (Z.to_N (Z.of_N (N_of_ascii a))) = a.
Proof. rewrite N2Z.id. apply ascii_N_embedding. Qed.

Lemma unutf8_utf8 (str : string) : unutf8 (utf8 str) = str.
Proof.
  unfold unutf8, utf8. rewrite map_map.
  rewrite (map_ext _ (fun a => a) ascii_round_trip), map_id.
  apply string_of_list_ascii_of_string.
Qed.


Lemma bufferWrite_tail (pre old bs : list octet) (pos : nat) :
  pos = List.length pre ->
  List.length old = List.length bs ->
  bufferWrite (pre ++ old) pos bs = pre ++ bs.
Proof.
  intros -> Hlen. unfold bufferWrite.
  rewrite length_app.
  replace (List.length pre + List.length old - List.length pre)%nat
    with (List.length bs) by lia.
  rewrite (take_ge bs (List.length bs)) by lia.
  rewrite take_app_length.
  rewrite drop_ge by (rewrite length_app; lia).
  rewrite app_nil_r. reflexivity.
Qed.

Lemma split_header (buffer : list octet) (n : nat) :
  List.length buffer = (12 + n)%nat ->
  exists a b c d,
    buffer = a ++ b ++ c ++ d
    /\ List.length a = 4%nat /\ List.length b = 4%nat
    /\ List.length c = 4%nat /\ List.length d = n.
Proof.
  intros Hlen.
  exists (take 4 buffer), (take 4 (drop 4 buffer)), (take 4 (drop 8 buffer)),
    (drop 12 buffer).
  split.
  - rewrite <- (take_drop 4 buffer) at 1. f_equal.
    rewrite <- (take_drop 4 (drop 4 buffer)) at 1. f_equal.
    rewrite drop_drop. change (4 + 4)%nat with 8%nat.
    rewrite <- (take_drop 4 (drop 8 buffer)) at 1. f_equal.
    rewrite drop_drop. reflexivity.
  - rewrite !length_take, !length_drop. lia.
Qed.

Lemma json_toData_bytes (stringify : JSValue -> option string)
    (newBuffer : nat -> list octet) (v : JSValue) (json : string) :
  (forall size, List.length (newBuffer size) = size) ->
  stringify v = Some json ->
  JsonSerializationService.toData stringify newBuffer v =
  Ok (mkHeapData
        (envelopeLayout true 0 (-11)
           (encodeInt INT_SIZE_IN_BYTES true (Z.of_nat (String.length json))
            ++ utf8 json))).
Proof.
  intros Halloc Hjson. unfold JsonSerializationService.toData, writeInt32BE. rewrite Hjson.
  set (n := List.length (utf8 json)).
  set (A := encodeInt INT_SIZE_IN_BYTES true 0).
  set (B := encodeInt INT_SIZE_IN_BYTES true (-11)).
  set (C := encodeInt INT_SIZE_IN_BYTES true (Z.of_nat (String.length json))).
  destruct (split_header (newBuffer (12 + n)%nat) n (Halloc _))
    as (a & b & c & d & -> & Ha & Hb & Hc & Hd).
  rewrite (writeAt_segment _ [] a (b ++ c ++ d) A 0);
    [|reflexivity|reflexivity|rewrite Ha; reflexivity].
  cbn [bind app].
  rewrite (writeAt_segment _ A b (c ++ d) B 4);
    [|reflexivity|reflexivity|rewrite Hb; reflexivity].
  cbn [bind].
  rewrite (writeAt_segment _ (A ++ B) c d C 8);
    [|rewrite <- ?app_assoc; reflexivity|reflexivity|rewrite Hc; reflexivity].
  cbn [bind]. f_equal. f_equal.
  rewrite app_assoc.
  rewrite (bufferWrite_tail ((A ++ B) ++ C) d (utf8 json) 12);
    [|reflexivity|exact Hd].
  unfold envelopeLayout. fold A B C. rewrite <- !app_assoc. reflexivity.
Qed.



(** X15.  [JsonSerializationService.toObject] gives back what
    [JSON.parse] makes of the text [toData] stored: the header and the
    length field are skipped and not looked at; so the round trip returns
    the value whenever [JSON.parse] inverts [JSON.stringify] on it.  For
    no data, [toObject] returns null. *)
Theorem json_round_trip (stringify : JSValue -> option string)
    (parse : string -> Result JSValue) (newBuffer : nat -> list octet)
    (v : JSValue) (json : string) :
  (forall size, List.length (newBuffer size) = size) ->
  stringify v = Some json ->
  (exists data,
     JsonSerializationService.toData stringify newBuffer v = Ok data
     /\ JsonSerializationService.toObject parse (Some data) = parse json)
  /\ JsonSerializationService.toObject parse None = Ok JNull.
Proof.
  intros Halloc Hjson. split; [|reflexivity].
  eexists. split; [apply json_toData_bytes; [exact Halloc | exact Hjson]|].
  unfold JsonSerializationService.toObject, data_toBuffer, envelopeLayout.
  cbn [heap_buffer].
  rewrite !app_assoc.
  rewrite (drop_app_length' _ (utf8 json) 12)
    by (rewrite !length_app, !encodeInt_length; reflexivity).
  rewrite unutf8_utf8. reflexivity.
Qed.

Lemma json_round_trip_witness :
  exists data,
    JsonSerializationService.toData Defaults.stringify (repeat 170) (JArray [] []) = Ok data
    /\ JsonSerializationService.toObject Defaults.parse (Some data) = Ok (JArray [] []).
Proof.
  destruct (json_round_trip Defaults.stringify Defaults.parse (repeat 170) (JArray [] []) "[]"
              (repeat_length 170) eq_refl)
    as ((data & Hdata & Hobject) & _).
  exists data. split; [exact Hdata|]. rewrite Hobject. reflexivity.
Defined.
